(** * A shallow embedding of the Expo + Strapi blog client

    The development follows the layout of the client:
    - [Utils]      lib/utils.ts         (base URL and media resolution)
    - [Types]      types/index.ts       (response envelopes, articles)
    - [Js]         promises, errors and the console, as far as the client
                   uses them
    - [StrapiApi]  lib/strapi-api.ts    (the fetch wrapper)
    - [Loaders]    data/loaders.ts      (article loaders)
    - [ReactQuery] the contract of the query library the hooks are written
                   against (query client defaults, retries, keyed cache)
    - [Hooks]      hooks/useArticles.ts
    - [Blocks]     components/blocks/block-renderer.tsx (both revisions)
    - [BlogScreen], [ArticleDetailScreen]  the two consumers of the hooks

    Numbers are integers ([Z]); [undefined] and [null] are [None]. *)

From Stdlib Require Import ZArith String List Bool Lia.
From stdpp Require Import base strings list gmap pretty.
Import ListNotations.
Local Open Scope string_scope.
Set Warnings "-register-all".

(** JavaScript truthiness of a string: only the empty string is falsy. *)
Definition truthy (s : string) : bool :=
  match s with
  | EmptyString => false
  | String _ _ => true
  end.

(** Truthiness of a [string | null | undefined] value. *)
Definition truthy_opt (s : option string) : bool :=
  match s with
  | None => false
  | Some s => truthy s
  end.

(** [a || b] on strings that may be undefined. *)
Definition or_else (a : option string) (b : string) : string :=
  match a with
  | Some s => if truthy s then s else b
  | None => b
  end.

(** [hay.includes(needle)] *)
Fixpoint includes (hay needle : string) : bool :=
  String.prefix needle hay
  || match hay with
     | EmptyString => false
     | String _ rest => includes rest needle
     end.

(** ** lib/utils.ts *)
Module Utils.
Section Config.
(** [process.env.EXPO_PUBLIC_STRAPI_URL] *)
Variable EXPO_PUBLIC_STRAPI_URL : option string.

Definition STRAPI_URL : string :=
  or_else EXPO_PUBLIC_STRAPI_URL "http://localhost:1337".

Definition getStrapiURL : string := STRAPI_URL.

Definition getStrapiMedia (url : option string) : option string :=
  if negb (truthy_opt url) then None
  else
    match url with
    | None => None
    | Some u =>
        if String.prefix "http" u then Some u
        else Some (getStrapiURL ++ u)
    end.
End Config.
End Utils.

(** ** types/index.ts *)
Module Types.
Record Pagination := {
  page : Z;
  pageSize : Z;
  pageCount : Z;
  total : Z
}.

Record StrapiMeta := { pagination : option Pagination }.

Record StrapiCollectionResponse (T : Type) := {
  data : list T;
  meta : StrapiMeta
}.
Arguments data {T} _.
Arguments meta {T} _.
Arguments Build_StrapiCollectionResponse {T} _ _.

Record TImage := {
  image_id : Z;
  image_documentId : string;
  alternativeText : option string;
  url : string;
  width : option Z;
  height : option Z
}.

Record TTag := {
  tag_id : Z;
  tag_documentId : string;
  tag_title : string
}.

Record TAuthor := {
  author_id : Z;
  author_documentId : string;
  fullName : string;
  bio : option string;
  image : option TImage
}.

Record Article := {
  id : Z;
  documentId : string;
  title : string;
  slug : string;
  description : string;
  content : string;
  createdAt : string;
  updatedAt : string;
  publishedAt : string;
  featuredImage : option TImage;
  author : option TAuthor;
  contentTags : option (list TTag)
}.
End Types.

(** ** components/blocks/block-renderer.tsx *)
Module Blocks.
(** A block as it arrives from the backend.  The static type [Block] is a
    closed union, but the array is cast from the decoded response, so the
    tag is whatever string the backend sent.  The kind-specific display
    fields are passed on to the component untouched. *)
Record Block := {
  __component : string;
  id : Z;
  fields : list (string * string)
}.

Inductive ComponentName :=
| Hero | SectionHeading | CardGrid | ContentWithImage | MarkdownText | Faqs.

(** What a render function returns: [null], a string child, the host
    elements [View] and [Text], or an element of one of the block
    components with the block spread into its props. *)
Inductive Element :=
| Null
| Str (s : string)
| View (className : option string) (key : option string)
       (children : list Element)
| Text (className : option string) (children : list Element)
| Component (c : ComponentName) (props : Block).

(** The text written in the tree itself.  A block component draws its own
    subtree from its props; none of that is text of this tree. *)
Fixpoint own_text (e : Element) : string :=
  match e with
  | Null => ""
  | Str s => s
  | View _ _ children => String.concat "" (map own_text children)
  | Text _ children => String.concat "" (map own_text children)
  | Component _ _ => ""
  end.

(** The template literal [`${block.__component}-${block.id}-${index}`]. *)
Definition key_of (block : Block) (index : nat) : string :=
  __component block ++ "-" ++ pretty (id block) ++ "-" ++ pretty index.

(** Step 6.4: the renderer that knows the hero only. *)
Module HeroOnly.
Definition renderBlock (block : Block) : Element :=
  if String.eqb (__component block) "blocks.hero" then
    Component Hero block
  else
    View (Some "p-4 m-4 bg-yellow-100 border border-yellow-400 rounded")
      None
      [Text (Some "text-yellow-800")
         [Str "Block not implemented: "; Str (__component block)]].

Definition BlockRenderer (blocks : list Block) : Element :=
  View None None
    (imap (fun index block =>
             View None (Some (key_of block index)) [renderBlock block])
       blocks).
End HeroOnly.

(** Step 6.7: the renderer with all six components. *)
Definition renderBlock (block : Block) : Element :=
  let c := __component block in
  if String.eqb c "blocks.hero" then Component Hero block
  else if String.eqb c "blocks.section-heading" then
    Component SectionHeading block
  else if String.eqb c "blocks.card-grid" then Component CardGrid block
  else if String.eqb c "blocks.content-with-image" then
    Component ContentWithImage block
  else if String.eqb c "blocks.markdown" then Component MarkdownText block
  else if String.eqb c "blocks.faqs" then Component Faqs block
  else Null.

Definition BlockRenderer (blocks : list Block) : Element :=
  View None None
    (imap (fun index block =>
             View None (Some (key_of block index)) [renderBlock block])
       blocks).

(** The registry of the final renderer. *)
Definition registered : list string :=
  ["blocks.hero"; "blocks.section-heading"; "blocks.card-grid";
   "blocks.content-with-image"; "blocks.markdown"; "blocks.faqs"].

Definition children_of (e : Element) : list Element :=
  match e with
  | View _ _ children => children
  | Text _ children => children
  | _ => []
  end.
End Blocks.

(** ** Promises, errors and the console *)
Module Js.
Record Error := { name : string; message : string }.

(** [new Error(message)] *)
Definition mkError (m : string) : Error :=
  {| name := "Error"; message := m |}.

(** How a promise settles. *)
Inductive Settled (A : Type) :=
| Fulfilled (value : A)
| Rejected (reason : Error).
Arguments Fulfilled {A} _.
Arguments Rejected {A} _.

(** An async function over a world [W]: it runs to a settled promise and
    leaves the world changed.  [await] is [bind]: a rejection of the awaited
    promise rejects the caller with the same reason. *)
Definition Async (W A : Type) : Type := W -> Settled A * W.

Definition ret {W A} (a : A) : Async W A := fun w => (Fulfilled a, w).

Definition throw {W A} (e : Error) : Async W A := fun w => (Rejected e, w).

Definition bind {W A B} (m : Async W A) (k : A -> Async W B) : Async W B :=
  fun w =>
    match m w with
    | (Fulfilled a, w') => k a w'
    | (Rejected e, w') => (Rejected e, w')
    end.
End Js.
Import Js.

#[global] Instance async_ret {W} : MRet (Async W) := fun A => ret.
#[global] Instance async_bind {W} : MBind (Async W) :=
  fun A B k m => bind m k.

(** ** lib/strapi-api.ts *)
Module StrapiApi.
(** The [object] values of [populate] and [filters]. *)
Inductive Obj :=
| OStr (s : string)
| ONum (n : Z)
| OBool (b : bool)
| OArr (items : list Obj)
| OObj (members : list (string * Obj)).

Record PaginationOptions := {
  page : option Z;
  pageSize : option Z
}.

Record QueryOptions := {
  populate : option Obj;
  filters : option Obj;
  sort : option (list string);
  pagination : option PaginationOptions;
  fields : option (list string)
}.

(** A GET request.  The URL is [/api/<endpoint>] on the base URL, with
    [qs.stringify(options)] as its search part when options are given; the
    pair below determines it. *)
Record Request := {
  endpoint : string;
  options : option QueryOptions
}.

(** The part of a fetch [Response] the wrapper reads.  [json] is the decoded
    body, [None] when the body does not decode. *)
Record Response (T : Type) := {
  ok : bool;
  status : Z;
  statusText : string;
  text : string;
  json : option T
}.
Arguments ok {T} _.
Arguments status {T} _.
Arguments statusText {T} _.
Arguments text {T} _.
Arguments json {T} _.

(** What the transport does with a request: it fails (fetch rejects with a
    [TypeError]) or it delivers a response, whatever its status. *)
Inductive FetchOutcome (T : Type) :=
| NetworkFailure (message : string)
| Responded (response : Response T).
Arguments NetworkFailure {T} _.
Arguments Responded {T} _.

(** What the client leaves behind: the requests it sent, oldest first, and
    the lines written with [console.error]. *)
Record World := {
  requests : list Request;
  console : list (list string)
}.

Definition start : World := {| requests := []; console := [] |}.

(** The world after one more request, and after one more console line. *)
Definition sent (w : World) (req : Request) : World :=
  {| requests := requests w ++ [req]; console := console w |}.

Definition logged (w : World) (args : list string) : World :=
  {| requests := requests w; console := console w ++ [args] |}.

Section Fetch.
Context {T : Type}.
(** The network: the outcome of the n-th request sent, numbered from 0. *)
Variable net : nat -> Request -> FetchOutcome T.

Definition fetch (req : Request) : Async World (Response T) :=
  fun w =>
    match net (length (requests w)) req with
    | NetworkFailure m =>
        (Rejected {| name := "TypeError"; message := m |}, sent w req)
    | Responded r => (Fulfilled r, sent w req)
    end.

Definition console_error (args : list string) : Async World unit :=
  fun w => (Fulfilled tt, logged w args).

Definition response_text (r : Response T) : Async World string :=
  ret (text r).

Definition response_json (r : Response T) : Async World T :=
  match json r with
  | Some v => ret v
  | None => throw {| name := "SyntaxError"; message := "JSON Parse error" |}
  end.

Definition fetchAPI (endpoint : string) (options : option QueryOptions)
  : Async World T :=
  response ← fetch {| endpoint := endpoint; options := options |};
  if negb (ok response) then
    text ← response_text response;
    _ ← console_error ["API error response:"; text];
    throw (mkError ("API error: " ++ pretty (status response) ++ " "
                      ++ statusText response))
  else
    response_json response.

(** [single(id).find] and [collection(id).find] *)
Definition single_find (singularApiId : string)
  (options : option QueryOptions) : Async World T :=
  fetchAPI singularApiId options.

Definition collection_find (pluralApiId : string)
  (options : option QueryOptions) : Async World T :=
  fetchAPI pluralApiId options.
End Fetch.
End StrapiApi.

(** ** data/loaders.ts *)
Module Loaders.
Import Types.
Import StrapiApi.

Definition PAGE_SIZE : Z := 10.

Record GetArticlesParams := {
  page : option Z;
  pageSize : option Z;
  tag : option string
}.

Abbreviation ArticlesResponse := (StrapiCollectionResponse Article).

Section Loaders.
Variable net : nat -> Request -> FetchOutcome ArticlesResponse.

(** [const articles = strapiApi.collection("articles")] *)
Definition articles_find (options : option QueryOptions)
  : Async World ArticlesResponse :=
  collection_find net "articles" options.

Definition getArticles (params : option GetArticlesParams)
  : Async World ArticlesResponse :=
  let page := default 1%Z (params ≫= page) in
  let pageSize := default PAGE_SIZE (params ≫= pageSize) in
  let tag := params ≫= tag in
  let filters :=
    match tag with
    | Some t =>
        if truthy t then
          Some (OObj [("contentTags",
                       OObj [("title", OObj [("$containsi", OStr t)])])])
        else None
    | None => None
    end in
  response ← articles_find (Some {|
      populate := None;
      filters := filters;
      sort := Some ["createdAt:desc"];
      pagination := Some {| StrapiApi.page := Some page;
                            StrapiApi.pageSize := Some pageSize |};
      fields := None |});
  ret response.

Definition getArticleBySlug (slug : string)
  : Async World ArticlesResponse :=
  response ← articles_find (Some {|
      populate := None;
      filters := Some (OObj [("slug", OObj [("$eq", OStr slug)])]);
      sort := None;
      pagination := None;
      fields := None |});
  ret response.
End Loaders.
End Loaders.

(** ** The query library

    The hooks hand option records to the query library and read its results
    back.  This module states the part of the library's contract that the
    client relies on: the client-wide retry default, the [enabled] switch,
    the derivation of [hasNextPage], and the cache that keeps one paged
    sequence per query key.  Time (stale time, garbage collection, retry
    delay) is not modelled: cached data is taken to be fresh. *)
Module ReactQuery.
Abbreviation QueryKey := (list (option string)).

(** [new QueryClient({ defaultOptions: { queries: ... } })] *)
Record QueryClient := {
  staleTime : Z;
  retry : nat
}.

(** A query function that rejects is run again, at most [retry] more
    times; the reason of the last rejection is the query's error. *)
Fixpoint retryer {W A} (retry : nat) (fn : Async W A) : Async W A :=
  fun w =>
    match fn w with
    | (Fulfilled a, w') => (Fulfilled a, w')
    | (Rejected e, w') =>
        match retry with
        | O => (Rejected e, w')
        | S n => retryer n fn w'
        end
    end.

Record QueryOptions (W A : Type) := {
  queryKey : QueryKey;
  queryFn : Async W A;
  enabled : bool
}.
Arguments queryKey {W A} _.
Arguments queryFn {W A} _.
Arguments enabled {W A} _.

(** What [useQuery] returns once the query is at rest. *)
Record QueryResult (A : Type) := {
  data : option A;
  error : option Error
}.
Arguments data {A} _.
Arguments error {A} _.
Arguments Build_QueryResult {A} _ _.

(** Mounting [useQuery] on a key with nothing cached. *)
Definition useQuery {W A} (client : QueryClient) (o : QueryOptions W A)
  : W -> QueryResult A * W :=
  fun w =>
    if enabled o then
      match retryer (retry client) (queryFn o) w with
      | (Fulfilled a, w') => ({| data := Some a; error := None |}, w')
      | (Rejected e, w') => ({| data := None; error := Some e |}, w')
      end
    else ({| data := None; error := None |}, w).

Record InfiniteQueryOptions (W P : Type) := {
  iqueryKey : QueryKey;
  iqueryFn : option Z -> Async W P;
  initialPageParam : Z;
  getNextPageParam : P -> option Z
}.
Arguments iqueryKey {W P} _.
Arguments iqueryFn {W P} _.
Arguments initialPageParam {W P} _.
Arguments getNextPageParam {W P} _.

Record InfiniteData (P : Type) := {
  pages : list P;
  pageParams : list Z
}.
Arguments pages {P} _.
Arguments pageParams {P} _.
Arguments Build_InfiniteData {P} _ _.

(** The parameter of the page after the last one held, if any, as the
    option [getNextPageParam] computes it from the last page. *)
Definition nextPageParam {P} (getNextPageParam : P -> option Z)
  (d : InfiniteData P) : option Z :=
  last (pages d) ≫= getNextPageParam.

Definition hasNextPage {P} (getNextPageParam : P -> option Z)
  (d : InfiniteData P) : bool :=
  match nextPageParam getNextPageParam d with
  | Some _ => true
  | None => false
  end.

(** The query cache: one paged sequence per query key, and the world the
    query functions run in. *)
Record Cache (W P : Type) := {
  queries : gmap QueryKey (InfiniteData P);
  world : W
}.
Arguments queries {W P} _.
Arguments world {W P} _.
Arguments Build_Cache {W P} _ _.

Section Infinite.
Context {W P : Type}.
Variable client : QueryClient.

(** Fetch the page with parameter [param] and append it to [d]. *)
Definition fetchPage (o : InfiniteQueryOptions W P) (param : Z)
  (d : InfiniteData P) : Async W (InfiniteData P) :=
  page ← retryer (retry client) (iqueryFn o (Some param));
  ret {| pages := pages d ++ [page];
         pageParams := pageParams d ++ [param] |}.

Definition settle (o : InfiniteQueryOptions W P) (c : Cache W P)
  (r : Settled (InfiniteData P) * W) : Cache W P :=
  match r with
  | (Fulfilled d, w') =>
      {| queries := <[iqueryKey o := d]> (queries c); world := w' |}
  | (Rejected _, w') => {| queries := queries c; world := w' |}
  end.

(** A component starts to observe the query of [o] (on mount, or because
    the key changed between renders).  A key with nothing cached fetches
    its first page; a key with cached pages shows them. *)
Definition observe (o : InfiniteQueryOptions W P) (c : Cache W P)
  : Cache W P :=
  match queries c !! iqueryKey o with
  | Some _ => c
  | None =>
      settle o c
        (fetchPage o (initialPageParam o)
           {| pages := []; pageParams := [] |} (world c))
  end.

(** [fetchNextPage()] on the query of [o]. *)
Definition fetchNextPage (o : InfiniteQueryOptions W P) (c : Cache W P)
  : Cache W P :=
  match queries c !! iqueryKey o with
  | Some d =>
      match nextPageParam (getNextPageParam o) d with
      | Some param => settle o c (fetchPage o param d (world c))
      | None => c
      end
  | None => c
  end.
End Infinite.
End ReactQuery.

(** ** app/_layout.tsx *)
Module Layout.
Definition queryClient : ReactQuery.QueryClient :=
  {| ReactQuery.staleTime := 1000 * 60 * 5; ReactQuery.retry := 3 |}.
End Layout.

(** ** hooks/useArticles.ts *)
Module Hooks.
Import Types.
Import StrapiApi.
Import Loaders.
Import ReactQuery.

(** [const { page, pageCount } = lastPage.meta.pagination
      || { page: 1, pageCount: 1 }] *)
Definition page_and_pageCount (lastPage : ArticlesResponse) : Z * Z :=
  match Types.pagination (meta lastPage) with
  | Some p => (Types.page p, Types.pageCount p)
  | None => (1%Z, 1%Z)
  end.

Definition getNextPageParam (lastPage : ArticlesResponse) : option Z :=
  let '(page, pageCount) := page_and_pageCount lastPage in
  if (page <? pageCount)%Z then Some (page + 1)%Z else None.

Section Hooks.
Variable net : nat -> Request -> FetchOutcome ArticlesResponse.

Definition useInfiniteArticles (tag : option string)
  : InfiniteQueryOptions World ArticlesResponse :=
  {| iqueryKey := [Some "articles"; Some "infinite"; tag];
     iqueryFn := fun pageParam =>
       getArticles net
         (Some {| page := Some (default 1%Z pageParam);
                  pageSize := None;
                  tag := tag |});
     initialPageParam := 1;
     ReactQuery.getNextPageParam := getNextPageParam |}.

Definition useArticleBySlug (slug : string)
  : QueryOptions World ArticlesResponse :=
  {| queryKey := [Some "article"; Some slug];
     queryFn := getArticleBySlug net slug;
     enabled := truthy slug |}.
End Hooks.
End Hooks.

(** ** app/(tabs)/blog.tsx *)
Module BlogScreen.
Import Types.
Import Loaders.
Import ReactQuery.

(** What a render of the screen reads from the hook and hands to the
    handlers it creates. *)
Record Flags := {
  flag_hasNextPage : bool;
  flag_isFetchingNextPage : bool
}.

(** The paged sequence as the screen sees it: the pages held, the
    parameters of the next-page fetches issued and not settled yet, and the
    flags of the last render, which the current handlers close over. *)
Record State := {
  held : InfiniteData ArticlesResponse;
  outstanding : list Z;
  rendered : Flags
}.

(** The flags of the query as they are now. *)
Definition hasNextPage (s : State) : bool :=
  ReactQuery.hasNextPage Hooks.getNextPageParam (held s).

Definition isFetchingNextPage (s : State) : bool :=
  match outstanding s with
  | [] => false
  | _ :: _ => true
  end.

Definition flags_of (s : State) : Flags :=
  {| flag_hasNextPage := hasNextPage s;
     flag_isFetchingNextPage := isFetchingNextPage s |}.

(** [fetchNextPage()]: a request for the page after the last one goes out,
    also when an earlier one is still in flight. *)
Definition fetchNextPage (s : State) : State :=
  match nextPageParam Hooks.getNextPageParam (held s) with
  | Some param =>
      {| held := held s;
         outstanding := outstanding s ++ [param];
         rendered := rendered s |}
  | None => s
  end.

(** The handler is made with [useCallback] from the [hasNextPage] and
    [isFetchingNextPage] of a render: it tests the flags it was made with,
    not the flags of the query at the time of the call. *)
Definition onEndReached (flags : Flags) (s : State) : State :=
  if flag_hasNextPage flags && negb (flag_isFetchingNextPage flags)
  then fetchNextPage s
  else s.

(** What happens to the screen: the list reports that its end is reached,
    the screen renders again, or the oldest outstanding fetch settles, with
    a page or with an error.  Pull-to-refresh is not part of this model. *)
Inductive Event :=
| EndReached
| Rendered
| PageArrived (page : ArticlesResponse)
| FetchFailed (reason : Error).

(** A fetch that a later [fetchNextPage()] has superseded is cancelled: when
    it settles its page is dropped.  The page of the one live fetch is
    appended. *)
Definition step (s : State) (e : Event) : State :=
  match e with
  | EndReached => onEndReached (rendered s) s
  | Rendered =>
      {| held := held s;
         outstanding := outstanding s;
         rendered := flags_of s |}
  | PageArrived page =>
      match outstanding s with
      | [] => s
      | [param] =>
          {| held := {| pages := pages (held s) ++ [page];
                        pageParams := pageParams (held s) ++ [param] |};
             outstanding := [];
             rendered := rendered s |}
      | _ :: rest =>
          {| held := held s; outstanding := rest; rendered := rendered s |}
      end
  | FetchFailed _ =>
      {| held := held s;
         outstanding := tail (outstanding s);
         rendered := rendered s |}
  end.

Definition run (s : State) (events : list Event) : State :=
  fold_left step events s.

(** [data?.pages.flatMap((page) => page.data) || []] *)
Definition articles (data : option (InfiniteData ArticlesResponse))
  : list Article :=
  match data with
  | Some d => concat (map Types.data (pages d))
  | None => []
  end.

(** [data?.pages[0]?.meta?.pagination?.total || 0] *)
Definition totalCount (data : option (InfiniteData ArticlesResponse)) : Z :=
  match data with
  | Some d =>
      match head (pages d) with
      | Some page =>
          match Types.pagination (Types.meta page) with
          | Some p => if (Types.total p =? 0)%Z then 0%Z else Types.total p
          | None => 0%Z
          end
      | None => 0%Z
      end
  | None => 0%Z
  end.

(** The count line of the list header:
    [{totalCount} article{totalCount !== 1 ? "s" : ""}] *)
Definition header_count (totalCount : Z) : string :=
  pretty totalCount ++ " article" ++ (if (totalCount =? 1)%Z then "" else "s").
End BlogScreen.

(** ** app/article/[slug].tsx *)
Module ArticleDetailScreen.
Import Types.
Import Loaders.

Inductive Screen :=
| LoadingScreen
| ErrorScreen (message : string)
| ArticleScreen (article : Article).

Definition ArticleDetailScreen (isLoading : bool)
  (data : option ArticlesResponse) (error : option Error) : Screen :=
  if isLoading then LoadingScreen
  else
    match error, data ≫= (fun d => head (Types.data d)) with
    | None, Some article => ArticleScreen article
    | _, _ =>
        ErrorScreen (or_else (message <$> error) "Article not found")
    end.
End ArticleDetailScreen.

(** ** components/strapi-image.tsx *)
Module StrapiImage.
(** The props of the [Image] element.  [source] cannot be passed through
    (the props type omits it); every other prop written before the spread
    is replaced by a passed-through prop of the same name. *)
Record Image := {
  uri : string;
  accessibilityLabel : option string;
  placeholder : string;
  transition : string;
  props : list (string * string)
}.

(** The value of a prop in the passed-through props, if it is there. *)
Fixpoint prop_of (name : string) (props : list (string * string))
  : option string :=
  match props with
  | [] => None
  | (k, v) :: rest => if String.eqb k name then Some v else prop_of name rest
  end.

Section Config.
Variable EXPO_PUBLIC_STRAPI_URL : option string.

Definition StrapiImage (src : string) (alt : option string)
  (props : list (string * string)) : option Image :=
  let imageUrl := Utils.getStrapiMedia EXPO_PUBLIC_STRAPI_URL (Some src) in
  if negb (truthy_opt imageUrl) then None
  else
    match imageUrl with
    | Some u =>
        Some {| uri := u;
                accessibilityLabel :=
                  match prop_of "accessibilityLabel" props with
                  | Some label => Some label
                  | None => alt
                  end;
                placeholder :=
                  default "blurhash: L6PZfSi_.AyE_3t7t7R**0o#DgR4"
                    (prop_of "placeholder" props);
                transition := default "200" (prop_of "transition" props);
                props := props |}
    | None => None
    end.
End Config.
End StrapiImage.

(** ** components/blocks/card-grid.tsx *)
Module CardGrid.
Definition cardVariants : list string :=
  ["bg-[#C4A1FF]"; "bg-[#E7F193]"; "bg-[#C4FF83]";
   "bg-[#FFB3BA]"; "bg-[#A1D4FF]"; "bg-[#FFDAA1]"].

Definition fallbackIcons : list string :=
  ["star"; "heart"; "flash"; "rocket"; "bulb"; "diamond"].

(** Indexing an array gives [undefined] out of range. *)
Definition getCardVariant (index : nat) : option string :=
  cardVariants !! (index mod length cardVariants).

Definition getFallbackIcon (index : nat) : option string :=
  fallbackIcons !! (index mod length fallbackIcons).
End CardGrid.

(** ** components/blocks/faqs.tsx *)
Module Faqs.
Record IFaqItem := {
  id : Z;
  heading : string;
  text : string
}.

(** [openIndex === index ? null : index] *)
Definition toggleFAQ (openIndex : option nat) (index : nat) : option nat :=
  if bool_decide (openIndex = Some index) then None else Some index.

(** One row of the list: its key, the question, the chevron, and the answer
    when the row is the open one. *)
Record Row := {
  key : string;
  shadow : string;
  question : string;
  chevron : string;
  answer : option string
}.

Definition rows (faq : list IFaqItem) (openIndex : option nat) : list Row :=
  imap (fun index item =>
          let open := bool_decide (openIndex = Some index) in
          {| key := "faq-" ++ pretty (id item) ++ "-" ++ pretty index;
             shadow := if open then "shadow-lg" else "shadow-md";
             question := heading item;
             chevron := if open then "chevron-up" else "chevron-down";
             answer := if open then Some (text item) else None |})
    faq.

(** [heading || "Frequently Asked Questions"] *)
Definition title (heading : option string) : string :=
  or_else heading "Frequently Asked Questions".

(** The rows are pressed one after the other, starting with all closed. *)
Definition press_all (presses : list nat) : option nat :=
  fold_left toggleFAQ presses None.
End Faqs.

(** ** Link buttons: components/blocks/hero.tsx and content-with-image.tsx *)
Module Links.
Record TLink := {
  id : Z;
  href : string;
  label : string;
  isExternal : bool;
  type : option string
}.

(** [Linking.openURL(url)]: the URLs handed to the system, oldest first. *)
Definition openURL (url : string) (opened : list string) : list string :=
  opened ++ [url].

(** The press handler of a hero link. *)
Definition Hero_handlePress (href : string) (isExternal : bool)
  (opened : list string) : list string :=
  if isExternal then openURL href opened else opened.

(** The press handler of the content-with-image block. *)
Definition ContentWithImage_handlePress (link : option TLink)
  (opened : list string) : list string :=
  match link with
  | Some l =>
      if truthy (href l) then
        if isExternal l then openURL (href l) opened else opened
      else opened
  | None => opened
  end.

(** [link?.href && link.label && <Pressable ...>]: the text children of the
    button when it is rendered. *)
Definition ContentWithImage_button (link : option TLink)
  : option (list string) :=
  match link with
  | Some l =>
      if truthy (href l) && truthy (label l) then Some [label l; " →"]
      else None
  | None => None
  end.
End Links.

(** ** components/article-card.tsx *)
Module ArticleCard.
Import Types.

(** [router.push(`/article/${article.slug}`)] *)
Definition handlePress (article : Article) : string :=
  "/article/" ++ slug article.

(** The tag chips of the card, [None] when the row of chips is not
    rendered: [contentTags && contentTags.length > 0 &&
    contentTags.slice(0, 3).map(...)]. *)
Definition tag_chips (article : Article) : option (list TTag) :=
  match contentTags article with
  | Some tags =>
      if (0 <? length tags)%nat then Some (take 3 tags) else None
  | None => None
  end.

(** The same row on the detail screen, without the slice. *)
Definition detail_tag_chips (article : Article) : option (list TTag) :=
  match contentTags article with
  | Some tags => if (0 <? length tags)%nat then Some tags else None
  | None => None
  end.

(** [article.author && <Text>By {article.author.fullName}</Text>] *)
Definition byline (article : Article) : option string :=
  match author article with
  | Some a => Some ("By " ++ fullName a)
  | None => None
  end.
End ArticleCard.

(** ** The landing page: types, loader, hook and home screen *)
Module Landing.
Import StrapiApi.

(** [LandingPage]; [blocks] is absent when the response was not populated,
    which the screen allows for with [landingPage?.blocks || []]. *)
Record LandingPage := {
  id : Z;
  documentId : string;
  title : string;
  description : string;
  createdAt : string;
  updatedAt : string;
  blocks : option (list Blocks.Block)
}.

Record StrapiResponse (T : Type) := {
  data : option T;
  meta : Types.StrapiMeta
}.
Arguments data {T} _.
Arguments meta {T} _.
Arguments Build_StrapiResponse {T} _ _.

Abbreviation LandingResponse := (StrapiResponse LandingPage).

Definition fields_of (names : list string) : Obj :=
  OObj [("fields", OArr (map OStr names))].

Definition landing_populate : Obj :=
  OObj [("blocks",
         OObj [("populate",
                OObj [("image",
                       fields_of ["url"; "alternativeText"; "width"; "height"]);
                      ("link", fields_of ["url"; "text"; "isExternal"]);
                      ("feature",
                       fields_of ["heading"; "subHeading"; "icon"])])])].

Section Landing.
Variable net : nat -> Request -> FetchOutcome LandingResponse.

Definition getLandingPageData : Async World LandingResponse :=
  response ← single_find net "landing-page" (Some {|
      populate := Some landing_populate;
      filters := None;
      sort := None;
      pagination := None;
      fields := None |});
  ret response.

(** hooks/useLandingPage.ts *)
Definition useLandingPage : ReactQuery.QueryOptions World LandingResponse :=
  {| ReactQuery.queryKey := [Some "landing-page"];
     ReactQuery.queryFn := getLandingPageData;
     ReactQuery.enabled := true |}.
End Landing.

Inductive Screen :=
| LoadingScreen
| ErrorScreen (message : string)
| ContentScreen (content : Blocks.Element).

(** app/(tabs)/index.tsx *)
Definition HomeScreen (isLoading : bool) (data : option LandingResponse)
  (error : option Error) : Screen :=
  if isLoading then LoadingScreen
  else
    match error with
    | Some e =>
        ErrorScreen (or_else (Some (message e)) "Failed to load landing page")
    | None =>
        let landingPage := data ≫= Landing.data in
        let blocks := default [] (landingPage ≫= blocks) in
        ContentScreen (Blocks.BlockRenderer blocks)
    end.
End Landing.

(** ** The requests the loaders put on the wire *)
Module Wire.
Import StrapiApi.

Definition tag_filter (tag : option string) : option Obj :=
  match tag with
  | Some t =>
      if truthy t then
        Some (OObj [("contentTags",
                     OObj [("title", OObj [("$containsi", OStr t)])])])
      else None
  | None => None
  end.

(** The request for one page of articles under a tag filter. *)
Definition articles_page (page pageSize : Z) (tag : option string)
  : Request :=
  {| endpoint := "articles";
     options := Some {|
       populate := None;
       filters := tag_filter tag;
       sort := Some ["createdAt:desc"];
       pagination := Some {| page := Some page; pageSize := Some pageSize |};
       fields := None |} |}.

(** The request for the articles with a given slug. *)
Definition article_by_slug (slug : string) : Request :=
  {| endpoint := "articles";
     options := Some {|
       populate := None;
       filters := Some (OObj [("slug", OObj [("$eq", OStr slug)])]);
       sort := None;
       pagination := None;
       fields := None |} |}.
End Wire.

(** ** Sample data for the examples *)

(** A page of the articles collection with no items and the given
    pagination metadata. *)
Definition page_with (p : option Types.Pagination)
  : Loaders.ArticlesResponse :=
  {| Types.data := []; Types.meta := {| Types.pagination := p |} |}.

Definition unknown_block : Blocks.Block :=
  {| Blocks.__component := "blocks.unknown-type";
     Blocks.id := 7;
     Blocks.fields := [] |}.

Definition hero_block : Blocks.Block :=
  {| Blocks.__component := "blocks.hero";
     Blocks.id := 1;
     Blocks.fields := [("heading", "Welcome")] |}.

Definition offline : nat -> StrapiApi.Request
  -> StrapiApi.FetchOutcome Loaders.ArticlesResponse :=
  fun _ _ => StrapiApi.NetworkFailure "Network request failed".

(** The backend finds no article: status 200 and an empty data array. *)
Definition not_found_response : StrapiApi.Response Loaders.ArticlesResponse :=
  {| StrapiApi.ok := true;
     StrapiApi.status := 200;
     StrapiApi.statusText := "OK";
     StrapiApi.text := "";
     StrapiApi.json :=
       Some (page_with (Some {| Types.page := 1; Types.pageSize := 25;
                                Types.pageCount := 0; Types.total := 0 |})) |}.

Definition server_error_response
  : StrapiApi.Response Loaders.ArticlesResponse :=
  {| StrapiApi.ok := false;
     StrapiApi.status := 500;
     StrapiApi.statusText := "Internal Server Error";
     StrapiApi.text := "Internal Server Error";
     StrapiApi.json := None |}.

Definition finds_nothing : nat -> StrapiApi.Request
  -> StrapiApi.FetchOutcome Loaders.ArticlesResponse :=
  fun _ _ => StrapiApi.Responded not_found_response.

Definition server_down : nat -> StrapiApi.Request
  -> StrapiApi.FetchOutcome Loaders.ArticlesResponse :=
  fun _ _ => StrapiApi.Responded server_error_response.

(** A backend with 25 articles in pages of 10: every request is answered
    with the metadata of the page it asks for, out of three pages. *)
Definition requested_page (req : StrapiApi.Request) : Z :=
  match StrapiApi.options req ≫= StrapiApi.pagination with
  | Some p => default 1%Z (StrapiApi.page p)
  | None => 1%Z
  end.

Definition three_pages : nat -> StrapiApi.Request
  -> StrapiApi.FetchOutcome Loaders.ArticlesResponse :=
  fun _ req =>
    StrapiApi.Responded
      {| StrapiApi.ok := true;
         StrapiApi.status := 200;
         StrapiApi.statusText := "OK";
         StrapiApi.text := "";
         StrapiApi.json :=
           Some (page_with
                   (Some {| Types.page := requested_page req;
                            Types.pageSize := 10;
                            Types.pageCount := 3;
                            Types.total := 25 |})) |}.

Definition empty_cache
  : ReactQuery.Cache StrapiApi.World Loaders.ArticlesResponse :=
  {| ReactQuery.queries := ∅; ReactQuery.world := StrapiApi.start |}.







(** The blog screen with page 1 of 3 on display and nothing in flight. *)
Definition first_page_shown : BlogScreen.State :=
  {| BlogScreen.held :=
       {| ReactQuery.pages :=
            [page_with (Some {| Types.page := 1; Types.pageSize := 10;
                                Types.pageCount := 3; Types.total := 25 |})];
          ReactQuery.pageParams := [1%Z] |};
     BlogScreen.outstanding := [];
     BlogScreen.rendered :=
       {| BlogScreen.flag_hasNextPage := true;
          BlogScreen.flag_isFetchingNextPage := false |} |}.

(** ** Notions used to state the further properties *)

(** The request of the landing page loader. *)
Definition landing_page_request : StrapiApi.Request :=
  {| StrapiApi.endpoint := "landing-page";
     StrapiApi.options := Some {|
       StrapiApi.populate := Some Landing.landing_populate;
       StrapiApi.filters := None;
       StrapiApi.sort := None;
       StrapiApi.pagination := None;
       StrapiApi.fields := None |} |}.

(** The React key of a unit. *)
Definition unit_key (e : Blocks.Element) : option string :=
  match e with
  | Blocks.View _ key _ => key
  | _ => None
  end.

Definition is_dash (c : Ascii.ascii) : bool :=
  Ascii.eqb c (Ascii.ascii_of_nat 45).

Fixpoint has_dash (s : string) : bool :=
  match s with
  | EmptyString => false
  | String c rest => is_dash c || has_dash rest
  end.

(** What follows the last dash of a string; the string itself when it has
    no dash. *)
Fixpoint last_segment (s : string) : string :=
  match s with
  | EmptyString => EmptyString
  | String c rest =>
      if has_dash rest then last_segment rest
      else if is_dash c then rest
      else String c rest
  end.

(** The list is opened under a tag and its end is reached [n] times, each
    fetch settling before the next. *)
Definition open_and_scroll
  (net : nat -> StrapiApi.Request
         -> StrapiApi.FetchOutcome Loaders.ArticlesResponse)
  (tag : option string) (n : nat)
  (c : ReactQuery.Cache StrapiApi.World Loaders.ArticlesResponse)
  : ReactQuery.Cache StrapiApi.World Loaders.ArticlesResponse :=
  Nat.iter n
    (ReactQuery.fetchNextPage Layout.queryClient
       (Hooks.useInfiniteArticles net tag))
    (ReactQuery.observe Layout.queryClient
       (Hooks.useInfiniteArticles net tag) c).

(** A backend that answers every request with success and with the
    metadata of the page asked for, out of [pageCount] pages. *)
Definition serves_pages
  (net : nat -> StrapiApi.Request
         -> StrapiApi.FetchOutcome Loaders.ArticlesResponse)
  (pageCount : Z) : Prop :=
  forall (i : nat) (req : StrapiApi.Request),
    exists r body p,
      net i req = StrapiApi.Responded r /\
      StrapiApi.ok r = true /\
      StrapiApi.json r = Some body /\
      Types.pagination (Types.meta body) = Some p /\
      Types.page p = requested_page req /\
      Types.pageCount p = pageCount.

(** The requests for the pages [1..k] under a tag. *)
Definition page_requests (tag : option string) (k : nat)
  : list StrapiApi.Request :=
  map (fun i => Wire.articles_page (Z.of_nat i) Loaders.PAGE_SIZE tag)
    (seq 1 k).

(** An article with four tags, and a landing page with two blocks. *)
Definition tag_named (n : Z) (title : string) : Types.TTag :=
  {| Types.tag_id := n; Types.tag_documentId := title;
     Types.tag_title := title |}.

Definition sample_article : Types.Article :=
  {| Types.id := 1;
     Types.documentId := "a1";
     Types.title := "Hello";
     Types.slug := "hello";
     Types.description := "";
     Types.content := "";
     Types.createdAt := "2025-01-01";
     Types.updatedAt := "2025-01-01";
     Types.publishedAt := "2025-01-01";
     Types.featuredImage := None;
     Types.author := None;
     Types.contentTags :=
       Some [tag_named 1 "expo"; tag_named 2 "strapi";
             tag_named 3 "react"; tag_named 4 "query"] |}.

Definition sample_landing_page : Landing.LandingResponse :=
  {| Landing.data :=
       Some {| Landing.id := 1;
               Landing.documentId := "lp";
               Landing.title := "Home";
               Landing.description := "";
               Landing.createdAt := "2025-01-01";
               Landing.updatedAt := "2025-01-01";
               Landing.blocks := Some [hero_block; unknown_block] |};
     Landing.meta := {| Types.pagination := None |} |}.

Definition landing_ok : nat -> StrapiApi.Request
  -> StrapiApi.FetchOutcome Landing.LandingResponse :=
  fun _ _ =>
    StrapiApi.Responded
      {| StrapiApi.ok := true;
         StrapiApi.status := 200;
         StrapiApi.statusText := "OK";
         StrapiApi.text := "";
         StrapiApi.json := Some sample_landing_page |}.

Definition landing_down : nat -> StrapiApi.Request
  -> StrapiApi.FetchOutcome Landing.LandingResponse :=
  fun _ _ =>
    StrapiApi.Responded
      {| StrapiApi.ok := false;
         StrapiApi.status := 403;
         StrapiApi.statusText := "Forbidden";
         StrapiApi.text := "Forbidden";
         StrapiApi.json := None |}.

Definition external_link : Links.TLink :=
  {| Links.id := 1; Links.href := "https://strapi.io";
     Links.label := "Strapi"; Links.isExternal := true;
     Links.type := None |}.

Definition sample_faq : list Faqs.IFaqItem :=
  [{| Faqs.id := 1; Faqs.heading := "What is Expo?";
      Faqs.text := "A framework for React Native." |};
   {| Faqs.id := 2; Faqs.heading := "What is Strapi?";
      Faqs.text := "A headless CMS." |}].

(** A backend whose first two answers are errors and which then finds the
    sample article, twice over. *)
Definition found_response : StrapiApi.Response Loaders.ArticlesResponse :=
  {| StrapiApi.ok := true;
     StrapiApi.status := 200;
     StrapiApi.statusText := "OK";
     StrapiApi.text := "";
     StrapiApi.json :=
       Some {| Types.data := [sample_article; sample_article];
               Types.meta := {| Types.pagination := None |} |} |}.

Definition flaky : nat -> StrapiApi.Request
  -> StrapiApi.FetchOutcome Loaders.ArticlesResponse :=
  fun i _ =>
    if (i <? 2)%nat then StrapiApi.Responded server_error_response
    else StrapiApi.Responded found_response.

(** ** Absolute URLs in the usual sense *)

Definition is_alpha (c : Ascii.ascii) : bool :=
  let n := Ascii.nat_of_ascii c in
  ((65 <=? n)%nat && (n <=? 90)%nat) || ((97 <=? n)%nat && (n <=? 122)%nat).

Definition is_scheme_char (c : Ascii.ascii) : bool :=
  let n := Ascii.nat_of_ascii c in
  is_alpha c || ((48 <=? n)%nat && (n <=? 57)%nat)
  || (n =? 43)%nat || (n =? 45)%nat || (n =? 46)%nat.

(** The rest of a scheme and its colon. *)
Fixpoint scheme_rest (s : string) : bool :=
  match s with
  | EmptyString => false
  | String c rest =>
      if (Ascii.nat_of_ascii c =? 58)%nat then true
      else is_scheme_char c && scheme_rest rest
  end.

(** A URL is absolute when it begins with a scheme: a letter, then letters,
    digits, plus, minus or dot, then a colon.  Any other URL is a relative
    reference. *)
Definition has_scheme (url : string) : bool :=
  match url with
  | EmptyString => false
  | String c rest => is_alpha c && scheme_rest rest
  end.

(** * Properties *)

(** ** Media resolution *)
Section MediaResolution.
Import Utils.
Variable env : option string.

Lemma truthy_nonempty (s : string) : truthy s = true <-> s <> "".
Proof. destruct s; simpl; split; intros; congruence. Qed.

Lemma truthy_empty (s : string) : truthy s = false <-> s = "".
Proof. destruct s; simpl; split; intros; congruence. Qed.

Lemma getStrapiMedia_null : getStrapiMedia env None = None.
Proof. reflexivity. Qed.

Lemma getStrapiMedia_falsy (url : string) :
  truthy url = false -> getStrapiMedia env (Some url) = None.
Proof. intros H. unfold getStrapiMedia. simpl. now rewrite H. Qed.

Lemma getStrapiMedia_truthy (url : string) :
  truthy url = true ->
  getStrapiMedia env (Some url) =
    Some (if String.prefix "http" url then url else getStrapiURL env ++ url).
Proof.
  intros H. unfold getStrapiMedia. simpl. rewrite H. simpl.
  now destruct (String.prefix "http" url).
Qed.
End MediaResolution.

Lemma prefix_split (p u : string) :
  String.prefix p u = true -> exists rest, u = p ++ rest.
Proof.
  revert u. induction p as [| c p IH]; intros u.
  - intros _. now exists u.
  - destruct u as [| c' u]; simpl; [discriminate |].
    destruct (Ascii.ascii_dec c c') as [<- |]; [| discriminate].
    intros H. destruct (IH u H) as [rest ->]. now exists rest.
Qed.

Lemma web_url_is_absolute (url : string) :
  String.prefix "http://" url = true \/ String.prefix "https://" url = true ->
  has_scheme url = true /\ String.prefix "http" url = true.
Proof.
  intros [H | H]; apply prefix_split in H as [rest ->]; split; reflexivity.
Qed.

Lemma root_path_is_relative (url : string) :
  String.prefix "/" url = true ->
  has_scheme url = false /\ String.prefix "http" url = false.
Proof.
  intros H. apply prefix_split in H as [rest ->]. split; reflexivity.
Qed.

(** C5, as the code has it.  The empty string is not null, yet the guard
    [if (!url) return null] sends it to null.  For every other string the
    first four characters decide: a string that starts with [http] is
    returned unchanged, any other string comes back with the configured
    base URL in front.  So every absolute URL written as [http://...] or
    [https://...] is returned unchanged, and every path that starts with a
    slash, which is a relative reference, is resolved against the base
    URL. *)
Theorem getStrapiMedia_resolves (env : option string) (url : string) :
  url <> "" ->
  (String.prefix "http" url = true ->
     Utils.getStrapiMedia env (Some url) = Some url) /\
  (String.prefix "http" url = false ->
     Utils.getStrapiMedia env (Some url)
       = Some (Utils.getStrapiURL env ++ url)) /\
  Utils.getStrapiMedia env (Some "") = None /\
  (String.prefix "http://" url = true \/ String.prefix "https://" url = true ->
     has_scheme url = true /\
     Utils.getStrapiMedia env (Some url) = Some url) /\
  (String.prefix "/" url = true ->
     has_scheme url = false /\
     Utils.getStrapiMedia env (Some url)
       = Some (Utils.getStrapiURL env ++ url)).
Proof.
  intros Hne. apply truthy_nonempty in Hne.
  rewrite (getStrapiMedia_truthy env url Hne).
  split; [now intros -> |].
  split; [now intros -> |].
  split; [reflexivity |].
  split.
  - intros H. destruct (web_url_is_absolute url H) as [Hs ->]. auto.
  - intros H. destruct (root_path_is_relative url H) as [Hs ->]. auto.
Qed.

Lemma getStrapiMedia_resolves_witness :
  Utils.getStrapiMedia None (Some "https://cdn.example.com/a.png")
    = Some "https://cdn.example.com/a.png" /\
  Utils.getStrapiMedia (Some "http://192.168.1.100:1337")
      (Some "/uploads/a.png")
    = Some "http://192.168.1.100:1337/uploads/a.png".
Proof.
  split.
  - refine (proj2 (proj1 (proj2 (proj2 (proj2
              (getStrapiMedia_resolves None "https://cdn.example.com/a.png"
                 _)))) _)).
    + discriminate.
    + right. reflexivity.
  - refine (proj2 (proj2 (proj2 (proj2 (proj2
              (getStrapiMedia_resolves (Some "http://192.168.1.100:1337")
                 "/uploads/a.png" _)))) _)).
    + discriminate.
    + reflexivity.
Defined.

(** C5 as stated fails in three ways.  The empty string is a non-null
    string that is not absolute, and the result is null, not the base URL.
    An absolute URL written with an upper-case scheme, or with a scheme
    other than http, gets the base URL in front instead of passing
    through.  A relative path whose name begins with [http] is returned
    unchanged instead of being resolved against the base URL. *)
Lemma getStrapiMedia_absolute_by_prefix_counterexample :
  (has_scheme "" = false /\
   Utils.getStrapiMedia None (Some "") = None /\
   Utils.getStrapiMedia None (Some "")
     <> Some (Utils.getStrapiURL None ++ "")) /\
  (has_scheme "HTTPS://cdn.example.com/a.png" = true /\
   Utils.getStrapiMedia None (Some "HTTPS://cdn.example.com/a.png")
     = Some "http://localhost:1337HTTPS://cdn.example.com/a.png" /\
   Utils.getStrapiMedia None (Some "HTTPS://cdn.example.com/a.png")
     <> Some "HTTPS://cdn.example.com/a.png") /\
  (has_scheme "data:image/png;base64,AAAA" = true /\
   Utils.getStrapiMedia None (Some "data:image/png;base64,AAAA")
     <> Some "data:image/png;base64,AAAA") /\
  (has_scheme "httpdocs/a.png" = false /\
   Utils.getStrapiMedia None (Some "httpdocs/a.png") = Some "httpdocs/a.png" /\
   Utils.getStrapiMedia None (Some "httpdocs/a.png")
     <> Some (Utils.getStrapiURL None ++ "httpdocs/a.png")).
Proof. repeat split; discriminate. Qed.

(** ** The next-page computation *)
Section NextPage.
Import Types.
Import Loaders.
Import ReactQuery.

Lemma getNextPageParam_unfold (lastPage : ArticlesResponse) :
  Hooks.getNextPageParam lastPage =
    if (fst (Hooks.page_and_pageCount lastPage)
          <? snd (Hooks.page_and_pageCount lastPage))%Z
    then Some (fst (Hooks.page_and_pageCount lastPage) + 1)%Z
    else None.
Proof.
  unfold Hooks.getNextPageParam.
  now destruct (Hooks.page_and_pageCount lastPage).
Qed.

Lemma page_and_pageCount_present lastPage p :
  Types.pagination (Types.meta lastPage) = Some p ->
  Hooks.page_and_pageCount lastPage = (Types.page p, Types.pageCount p).
Proof. intros H. unfold Hooks.page_and_pageCount. now rewrite H. Qed.

Lemma getNextPageParam_more lastPage p :
  Types.pagination (Types.meta lastPage) = Some p ->
  (Types.page p < Types.pageCount p)%Z ->
  Hooks.getNextPageParam lastPage = Some (Types.page p + 1)%Z.
Proof.
  intros H Hlt. rewrite getNextPageParam_unfold.
  rewrite (page_and_pageCount_present _ _ H). simpl.
  now apply Z.ltb_lt in Hlt as ->.
Qed.

Lemma getNextPageParam_done lastPage p :
  Types.pagination (Types.meta lastPage) = Some p ->
  (Types.pageCount p <= Types.page p)%Z ->
  Hooks.getNextPageParam lastPage = None.
Proof.
  intros H Hge. rewrite getNextPageParam_unfold.
  rewrite (page_and_pageCount_present _ _ H). simpl.
  now apply Z.ltb_ge in Hge as ->.
Qed.

Lemma hasNextPage_last {P} (f : P -> option Z) (d : InfiniteData P)
  (lastPage : P) :
  last (pages d) = Some lastPage ->
  hasNextPage f d = match f lastPage with Some _ => true | None => false end.
Proof.
  intros H. unfold hasNextPage, nextPageParam. now rewrite H.
Qed.

Lemma hasNextPage_no_pages {P} (f : P -> option Z) (d : InfiniteData P) :
  pages d = [] -> hasNextPage f d = false.
Proof. intros H. unfold hasNextPage, nextPageParam. now rewrite H. Qed.
End NextPage.

(** C2, as the code has it.  With pagination metadata present, the
    next-page computation gives [page + 1] when [page < pageCount] and
    undefined otherwise, so [hasNextPage] is false exactly when
    [pageCount <= page]; for a response with [page <= pageCount] that is
    exactly when [page = pageCount]. *)
Theorem getNextPageParam_spec
  (lastPage : Loaders.ArticlesResponse) (p : Types.Pagination)
  (d : ReactQuery.InfiniteData Loaders.ArticlesResponse) :
  Types.pagination (Types.meta lastPage) = Some p ->
  last (ReactQuery.pages d) = Some lastPage ->
  ((Types.page p < Types.pageCount p)%Z ->
     Hooks.getNextPageParam lastPage = Some (Types.page p + 1)%Z) /\
  (~ (Types.page p < Types.pageCount p)%Z ->
     Hooks.getNextPageParam lastPage = None) /\
  (ReactQuery.hasNextPage Hooks.getNextPageParam d = false
     <-> (Types.pageCount p <= Types.page p)%Z) /\
  ((Types.page p <= Types.pageCount p)%Z ->
     (ReactQuery.hasNextPage Hooks.getNextPageParam d = false
        <-> Types.page p = Types.pageCount p)).
Proof.
  intros Hp Hlast.
  rewrite (hasNextPage_last _ _ _ Hlast).
  destruct (Z.lt_ge_cases (Types.page p) (Types.pageCount p)) as [Hlt | Hge].
  - rewrite (getNextPageParam_more _ _ Hp Hlt).
    repeat split; intros; try discriminate; lia.
  - rewrite (getNextPageParam_done _ _ Hp Hge).
    repeat split; intros; try reflexivity; lia.
Qed.

Lemma getNextPageParam_spec_witness :
  Hooks.getNextPageParam
    (page_with (Some {| Types.page := 2; Types.pageSize := 10;
                        Types.pageCount := 3; Types.total := 25 |}))
    = Some 3%Z /\
  ReactQuery.hasNextPage Hooks.getNextPageParam
    {| ReactQuery.pages :=
         [page_with (Some {| Types.page := 3; Types.pageSize := 10;
                             Types.pageCount := 3; Types.total := 25 |})];
       ReactQuery.pageParams := [3%Z] |} = false.
Proof.
  split.
  - apply (getNextPageParam_spec
             (page_with (Some {| Types.page := 2; Types.pageSize := 10;
                                 Types.pageCount := 3; Types.total := 25 |}))
             {| Types.page := 2; Types.pageSize := 10;
                Types.pageCount := 3; Types.total := 25 |}
             {| ReactQuery.pages := [page_with (Some
                  {| Types.page := 2; Types.pageSize := 10;
                     Types.pageCount := 3; Types.total := 25 |})];
                ReactQuery.pageParams := [2%Z] |});
      [reflexivity | reflexivity | simpl; lia].
  - apply (getNextPageParam_spec
             (page_with (Some {| Types.page := 3; Types.pageSize := 10;
                                 Types.pageCount := 3; Types.total := 25 |}))
             {| Types.page := 3; Types.pageSize := 10;
                Types.pageCount := 3; Types.total := 25 |}
             {| ReactQuery.pages := [page_with (Some
                  {| Types.page := 3; Types.pageSize := 10;
                     Types.pageCount := 3; Types.total := 25 |})];
                ReactQuery.pageParams := [3%Z] |});
      [reflexivity | reflexivity | simpl; lia | reflexivity].
Defined.

(** C2 as stated fails on the answer of an empty collection, page 1 of 0
    pages: there is no next page although [page] differs from
    [pageCount]. *)
Lemma hasNextPage_page_beyond_pageCount_counterexample :
  ReactQuery.hasNextPage Hooks.getNextPageParam
    {| ReactQuery.pages :=
         [page_with (Some {| Types.page := 1; Types.pageSize := 10;
                             Types.pageCount := 0; Types.total := 0 |})];
       ReactQuery.pageParams := [1%Z] |} = false /\
  (1 <> 0)%Z.
Proof. split; [reflexivity | discriminate]. Qed.

(** C9.  When the metadata of the last page has no pagination object, the
    computation runs on the defaults [page = 1] and [pageCount = 1]; it
    yields no next page, and [hasNextPage] is false. *)
Theorem getNextPageParam_without_pagination
  (lastPage : Loaders.ArticlesResponse)
  (d : ReactQuery.InfiniteData Loaders.ArticlesResponse) :
  Types.pagination (Types.meta lastPage) = None ->
  last (ReactQuery.pages d) = Some lastPage ->
  Hooks.page_and_pageCount lastPage = (1%Z, 1%Z) /\
  Hooks.getNextPageParam lastPage = None /\
  ReactQuery.hasNextPage Hooks.getNextPageParam d = false.
Proof.
  intros Hnone Hlast.
  assert (Hd : Hooks.page_and_pageCount lastPage = (1%Z, 1%Z)).
  { unfold Hooks.page_and_pageCount. now rewrite Hnone. }
  assert (Hn : Hooks.getNextPageParam lastPage = None).
  { rewrite getNextPageParam_unfold, Hd. reflexivity. }
  repeat split; try assumption.
  rewrite (hasNextPage_last _ _ _ Hlast). now rewrite Hn.
Qed.

Lemma getNextPageParam_without_pagination_witness :
  Hooks.getNextPageParam (page_with None) = None.
Proof.
  apply (getNextPageParam_without_pagination (page_with None)
           {| ReactQuery.pages := [page_with None];
              ReactQuery.pageParams := [1%Z] |});
    reflexivity.
Defined.

(** ** The block renderer *)
Section BlockRendering.
Import Blocks.

Lemma prefix_app (s t : string) : String.prefix s (s ++ t) = true.
Proof.
  induction s as [| c s IH]; simpl.
  - now destruct t.
  - destruct (Ascii.ascii_dec c c); [exact IH | congruence].
Qed.

Lemma prefix_refl (s : string) : String.prefix s s = true.
Proof.
  induction s as [| c s IH]; simpl; [reflexivity |].
  destruct (Ascii.ascii_dec c c); [exact IH | congruence].
Qed.

Lemma includes_unfold (hay needle : string) :
  includes hay needle =
    String.prefix needle hay
    || match hay with
       | EmptyString => false
       | String _ rest => includes rest needle
       end.
Proof. destruct hay; reflexivity. Qed.

Lemma includes_app (a s : string) : includes (a ++ s) s = true.
Proof.
  induction a as [| c a IH]; simpl.
  - rewrite includes_unfold. now rewrite prefix_refl.
  - rewrite IH. apply orb_true_r.
Qed.

(** [blocks.map((block, index) => unit)] under any per-block render
    function: as many units as blocks, the i-th made from the i-th block. *)
Lemma units_length (render : Block -> Element) blocks :
  length (imap (fun index block =>
                  View None (Some (key_of block index)) [render block])
            blocks) = length blocks.
Proof. apply length_imap. Qed.

Lemma units_lookup (render : Block -> Element) blocks (i : nat) :
  imap (fun index block =>
          View None (Some (key_of block index)) [render block]) blocks !! i
  = (fun block => View None (Some (key_of block i)) [render block])
      <$> blocks !! i.
Proof. apply list_lookup_imap. Qed.

Lemma renderBlock_unregistered (block : Block) :
  ~ In (__component block) registered -> renderBlock block = Null.
Proof.
  intros H. unfold renderBlock. cbv zeta.
  repeat match goal with
  | |- context [String.eqb ?a ?b] =>
      destruct (String.eqb_spec a b) as [Heq | _];
      [exfalso; apply H; rewrite Heq; simpl; tauto |]
  end.
  reflexivity.
Qed.

Lemma HeroOnly_renderBlock_not_hero (block : Block) :
  __component block <> "blocks.hero" ->
  HeroOnly.renderBlock block =
    View (Some "p-4 m-4 bg-yellow-100 border border-yellow-400 rounded")
      None
      [Text (Some "text-yellow-800")
         [Str "Block not implemented: "; Str (__component block)]].
Proof.
  intros H. unfold HeroOnly.renderBlock.
  now destruct (String.eqb_spec (__component block) "blocks.hero").
Qed.

Lemma placeholder_text (tag : string) :
  own_text
    (View (Some "p-4 m-4 bg-yellow-100 border border-yellow-400 rounded")
       None
       [Text (Some "text-yellow-800")
          [Str "Block not implemented: "; Str tag]])
  = "Block not implemented: " ++ tag.
Proof.
  simpl. destruct tag; reflexivity.
Qed.
End BlockRendering.

(** C4.  The renderer makes one unit per block, in input order: its
    children are as many as the blocks, the i-th child is the keyed wrapper
    around the rendering of the i-th block, there is no child beyond the
    last block, and the empty sequence has no children. *)
Theorem BlockRenderer_one_unit_per_block (blocks : list Blocks.Block) :
  length (Blocks.children_of (Blocks.BlockRenderer blocks)) = length blocks /\
  (forall (i : nat) (block : Blocks.Block),
     blocks !! i = Some block ->
     Blocks.children_of (Blocks.BlockRenderer blocks) !! i
       = Some (Blocks.View None (Some (Blocks.key_of block i))
                 [Blocks.renderBlock block])) /\
  (forall i : nat,
     blocks !! i = None ->
     Blocks.children_of (Blocks.BlockRenderer blocks) !! i = None) /\
  Blocks.children_of (Blocks.BlockRenderer []) = [].
Proof.
  unfold Blocks.BlockRenderer. simpl Blocks.children_of.
  repeat split.
  - apply units_length.
  - intros i block H. rewrite units_lookup. now rewrite H.
  - intros i H. rewrite units_lookup. now rewrite H.
Qed.

Lemma BlockRenderer_one_unit_per_block_witness :
  Blocks.children_of (Blocks.BlockRenderer [hero_block; unknown_block]) !! 1%nat
    = Some (Blocks.View None (Some "blocks.unknown-type-7-1")
              [Blocks.renderBlock unknown_block]).
Proof.
  exact (proj1 (proj2 (BlockRenderer_one_unit_per_block
                         [hero_block; unknown_block]))
           1%nat unknown_block eq_refl).
Defined.

(** C1, as the code has it.  For a block whose tag is none of the six
    registered ones, the final renderer returns null inside the block's
    keyed wrapper: the unit is there, it shows nothing, and the other blocks
    are rendered as usual.  The placeholder with the raw tag is what the
    earlier renderer, which knows the hero only, makes of such a block.
    Both are total functions: nothing is thrown. *)
Theorem BlockRenderer_unregistered_tag
  (blocks : list Blocks.Block) (i : nat) (block : Blocks.Block) :
  blocks !! i = Some block ->
  ~ In (Blocks.__component block) Blocks.registered ->
  Blocks.children_of (Blocks.BlockRenderer blocks) !! i
    = Some (Blocks.View None (Some (Blocks.key_of block i)) [Blocks.Null]) /\
  Blocks.own_text (Blocks.renderBlock block) = "" /\
  length (Blocks.children_of (Blocks.BlockRenderer blocks)) = length blocks /\
  (forall (j : nat) (other : Blocks.Block),
     blocks !! j = Some other ->
     Blocks.children_of (Blocks.BlockRenderer blocks) !! j
       = Some (Blocks.View None (Some (Blocks.key_of other j))
                 [Blocks.renderBlock other])) /\
  Blocks.children_of (Blocks.HeroOnly.BlockRenderer blocks) !! i
    = Some (Blocks.View None (Some (Blocks.key_of block i))
              [Blocks.HeroOnly.renderBlock block]) /\
  length (Blocks.children_of (Blocks.HeroOnly.BlockRenderer blocks))
    = length blocks /\
  Blocks.own_text (Blocks.HeroOnly.renderBlock block)
    = "Block not implemented: " ++ Blocks.__component block /\
  includes (Blocks.own_text (Blocks.HeroOnly.renderBlock block))
    (Blocks.__component block) = true.
Proof.
  intros Hi Hun.
  assert (Hhero : Blocks.__component block <> "blocks.hero").
  { intros Heq. apply Hun. rewrite Heq. simpl. tauto. }
  unfold Blocks.BlockRenderer, Blocks.HeroOnly.BlockRenderer.
  simpl Blocks.children_of.
  rewrite !units_length, !units_lookup, Hi.
  pose proof (renderBlock_unregistered _ Hun) as Hnull.
  pose proof (HeroOnly_renderBlock_not_hero _ Hhero) as Hplace.
  repeat split.
  - simpl. now rewrite Hnull.
  - now rewrite Hnull.
  - intros j other Hj. rewrite units_lookup. now rewrite Hj.
  - rewrite Hplace. apply placeholder_text.
  - rewrite Hplace, placeholder_text. apply includes_app.
Qed.

Lemma BlockRenderer_unregistered_tag_witness :
  Blocks.children_of (Blocks.BlockRenderer [hero_block; unknown_block]) !! 1%nat
    = Some (Blocks.View None (Some "blocks.unknown-type-7-1") [Blocks.Null]) /\
  Blocks.own_text (Blocks.HeroOnly.renderBlock unknown_block)
    = "Block not implemented: blocks.unknown-type".
Proof.
  assert (H : ~ In (Blocks.__component unknown_block) Blocks.registered).
  { simpl. intros [H | [H | [H | [H | [H | [H | []]]]]]]; discriminate H. }
  split.
  - exact (proj1 (BlockRenderer_unregistered_tag
                    [hero_block; unknown_block] 1 unknown_block eq_refl H)).
  - exact (proj1 (proj2 (proj2 (proj2 (proj2 (proj2 (proj2
             (BlockRenderer_unregistered_tag
                [hero_block; unknown_block] 1 unknown_block eq_refl H)))))))).
Defined.

(** C1 as stated fails on the final renderer: the block tagged
    [blocks.unknown-type] comes out as a wrapper around null, and the tag
    appears nowhere in the text of the tree. *)
Lemma BlockRenderer_unknown_type_counterexample :
  ~ In "blocks.unknown-type" Blocks.registered /\
  Blocks.BlockRenderer [unknown_block]
    = Blocks.View None None
        [Blocks.View None (Some "blocks.unknown-type-7-0") [Blocks.Null]] /\
  includes (Blocks.own_text (Blocks.BlockRenderer [unknown_block]))
    "blocks.unknown-type" = false.
Proof.
  repeat split.
  simpl. intros [H | [H | [H | [H | [H | [H | []]]]]]]; discriminate H.
Qed.

(** ** The slug query *)

Lemma bind_ret_r {W A} (m : Async W A) (w : W) :
  (x ← m; ret x) w = m w.
Proof.
  unfold mbind, async_bind, bind. destruct (m w) as [[a | e] w']; reflexivity.
Qed.

(** C10.  A falsy slug is the empty string; for it the query is disabled,
    and mounting the hook sends nothing: the world, with its list of
    requests, is as it was and the query has neither data nor error. *)
Theorem useArticleBySlug_falsy_slug
  (net : nat -> StrapiApi.Request
         -> StrapiApi.FetchOutcome Loaders.ArticlesResponse)
  (client : ReactQuery.QueryClient) (slug : string) (w : StrapiApi.World) :
  truthy slug = false ->
  slug = "" /\
  ReactQuery.enabled (Hooks.useArticleBySlug net slug) = false /\
  ReactQuery.useQuery client (Hooks.useArticleBySlug net slug) w
    = ({| ReactQuery.data := None; ReactQuery.error := None |}, w).
Proof.
  intros H. split; [now apply truthy_empty |].
  unfold ReactQuery.useQuery. simpl. now rewrite H.
Qed.

Lemma useArticleBySlug_falsy_slug_witness :
  StrapiApi.requests
    (snd (ReactQuery.useQuery Layout.queryClient
            (Hooks.useArticleBySlug offline "") StrapiApi.start)) = [].
Proof.
  rewrite (proj2 (proj2 (useArticleBySlug_falsy_slug offline
                           Layout.queryClient "" StrapiApi.start eq_refl))).
  reflexivity.
Defined.

(** ** The fetch layer *)
Section FetchLayer.
Import StrapiApi.
Context {T : Type}.
Variable net : nat -> Request -> FetchOutcome T.

(** What one call of the wrapper does, by the answer of the network. *)
Lemma fetchAPI_network_failure (req : Request) w m :
  net (length (requests w)) req = NetworkFailure m ->
  fetchAPI net (endpoint req) (options req) w
    = (Rejected {| name := "TypeError"; message := m |}, sent w req).
Proof.
  destruct req as [ep opts]. simpl. intros H.
  unfold fetchAPI, mbind, async_bind, bind, fetch.
  now rewrite H.
Qed.

Lemma fetchAPI_not_ok (req : Request) w r :
  net (length (requests w)) req = Responded r ->
  ok r = false ->
  fetchAPI net (endpoint req) (options req) w
    = (Rejected (mkError ("API error: " ++ pretty (status r) ++ " "
                            ++ statusText r)),
       logged (sent w req) ["API error response:"; text r]).
Proof.
  destruct req as [ep opts]. simpl. intros H Hok.
  unfold fetchAPI, mbind, async_bind, bind, fetch.
  rewrite H, Hok. reflexivity.
Qed.

Lemma fetchAPI_ok (req : Request) w r body :
  net (length (requests w)) req = Responded r ->
  ok r = true ->
  json r = Some body ->
  fetchAPI net (endpoint req) (options req) w = (Fulfilled body, sent w req).
Proof.
  destruct req as [ep opts]. simpl. intros H Hok Hjson.
  unfold fetchAPI, mbind, async_bind, bind, fetch.
  rewrite H, Hok. simpl. unfold response_json. now rewrite Hjson.
Qed.

(** Whatever the answer, one call sends one request. *)
Lemma fetchAPI_sends_one (req : Request) w :
  requests (snd (fetchAPI net (endpoint req) (options req) w))
    = (requests w ++ [req])%list.
Proof.
  destruct req as [ep opts]. simpl.
  unfold fetchAPI, mbind, async_bind, bind, fetch.
  destruct (net _ _) as [m | r]; [reflexivity |].
  destruct (ok r); simpl; [| reflexivity].
  unfold response_json. now destruct (json r).
Qed.
End FetchLayer.

Section LoaderLayer.
Import StrapiApi.
Import Loaders.
Variable net : nat -> Request -> FetchOutcome ArticlesResponse.

(** A loader awaits the wrapper and returns what it got: it is the wrapper
    applied to the loader's request. *)
Lemma getArticles_is_fetchAPI params w :
  let req := Wire.articles_page
               (default 1%Z (params ≫= page))
               (default PAGE_SIZE (params ≫= pageSize))
               (params ≫= tag) in
  getArticles net params w = fetchAPI net (endpoint req) (options req) w.
Proof. unfold getArticles. cbv zeta. now rewrite bind_ret_r. Qed.

Lemma getArticleBySlug_is_fetchAPI slug w :
  getArticleBySlug net slug w
    = fetchAPI net (endpoint (Wire.article_by_slug slug))
        (options (Wire.article_by_slug slug)) w.
Proof. unfold getArticleBySlug. now rewrite bind_ret_r. Qed.

Lemma getArticles_sends_one params w :
  requests (snd (getArticles net params w))
    = (requests w ++ [Wire.articles_page
                        (default 1%Z (params ≫= page))
                        (default PAGE_SIZE (params ≫= pageSize))
                        (params ≫= tag)])%list.
Proof. rewrite getArticles_is_fetchAPI. apply fetchAPI_sends_one. Qed.

Lemma getArticleBySlug_sends_one slug w :
  requests (snd (getArticleBySlug net slug w))
    = (requests w ++ [Wire.article_by_slug slug])%list.
Proof. rewrite getArticleBySlug_is_fetchAPI. apply fetchAPI_sends_one. Qed.
End LoaderLayer.

(** ** Retries *)
Section Retries.
Import StrapiApi.
Import ReactQuery.
Context {A : Type}.
Variable fn : Async World A.

(** The error a retried query ends with is the rejection of one of its
    runs, the last one. *)
Lemma retryer_rejected (n : nat) (w w' : World) (e : Error) :
  retryer n fn w = (Rejected e, w') ->
  exists w0, fn w0 = (Rejected e, w').
Proof.
  revert w. induction n as [| n IH]; intros w; simpl;
    destruct (fn w) as [[a | e0] w1] eqn:Hrun; intros H;
    try discriminate.
  - exists w. now rewrite Hrun.
  - now apply IH in H.
Qed.

Lemma retryer_fulfilled_first (n : nat) (w w' : World) (a : A) :
  fn w = (Fulfilled a, w') -> retryer n fn w = (Fulfilled a, w').
Proof. intros H. destruct n; simpl; now rewrite H. Qed.

Hypothesis one_request_per_run :
  forall w, length (requests (snd (fn w))) = S (length (requests w)).

(** A query that ends in an error has run [retry + 1] times. *)
Lemma retryer_rejected_requests (n : nat) (w w' : World) (e : Error) :
  retryer n fn w = (Rejected e, w') ->
  length (requests w') = length (requests w) + S n.
Proof.
  revert w. induction n as [| n IH]; intros w; simpl;
    pose proof (one_request_per_run w) as Hone;
    destruct (fn w) as [[a | e0] w1] eqn:Hrun; intros H;
    try discriminate; simpl in Hone.
  - injection H as _ <-. lia.
  - apply IH in H. lia.
Qed.

Lemma retryer_requests_bound (n : nat) (w : World) :
  length (requests w) < length (requests (snd (retryer n fn w)))
    <= length (requests w) + S n.
Proof.
  revert w. induction n as [| n IH]; intros w; simpl;
    pose proof (one_request_per_run w) as Hone;
    destruct (fn w) as [[a | e0] w1] eqn:Hrun; simpl in *; try lia.
  specialize (IH w1). lia.
Qed.
End Retries.

(** ** Not found against failure *)

(** C3.  When the backend answers the slug request with success and an
    empty data array, the lookup is fulfilled with that empty result, and
    the detail screen says that the article was not found.  When the answer
    is a non-success status, or the transport fails, the lookup is rejected
    with an error; the screen then shows the message of that error.  The
    two outcomes differ, and so do the two messages. *)
Theorem getArticleBySlug_not_found_is_not_an_error
  (net : nat -> StrapiApi.Request
         -> StrapiApi.FetchOutcome Loaders.ArticlesResponse)
  (slug : string) (w : StrapiApi.World) :
  (forall r body,
     net (length (StrapiApi.requests w)) (Wire.article_by_slug slug)
       = StrapiApi.Responded r ->
     StrapiApi.ok r = true ->
     StrapiApi.json r = Some body ->
     Types.data body = [] ->
     fst (Loaders.getArticleBySlug net slug w) = Fulfilled body /\
     ArticleDetailScreen.ArticleDetailScreen false (Some body) None
       = ArticleDetailScreen.ErrorScreen "Article not found") /\
  (forall r,
     net (length (StrapiApi.requests w)) (Wire.article_by_slug slug)
       = StrapiApi.Responded r ->
     StrapiApi.ok r = false ->
     let e := mkError ("API error: " ++ pretty (StrapiApi.status r) ++ " "
                         ++ StrapiApi.statusText r) in
     fst (Loaders.getArticleBySlug net slug w) = Rejected e /\
     ArticleDetailScreen.ArticleDetailScreen false None (Some e)
       = ArticleDetailScreen.ErrorScreen (message e) /\
     message e <> "Article not found") /\
  (forall m,
     net (length (StrapiApi.requests w)) (Wire.article_by_slug slug)
       = StrapiApi.NetworkFailure m ->
     fst (Loaders.getArticleBySlug net slug w)
       = Rejected {| name := "TypeError"; message := m |}) /\
  (forall (body : Loaders.ArticlesResponse) (e : Error),
     Fulfilled body <> Rejected e).
Proof.
  rewrite getArticleBySlug_is_fetchAPI.
  split; [| split; [| split]].
  - intros r body Hnet Hok Hjson Hdata.
    rewrite (fetchAPI_ok net _ _ _ _ Hnet Hok Hjson).
    split; [reflexivity |].
    unfold ArticleDetailScreen.ArticleDetailScreen. simpl.
    now rewrite Hdata.
  - intros r Hnet Hok e.
    rewrite (fetchAPI_not_ok net _ _ _ Hnet Hok).
    repeat split. discriminate.
  - intros m Hnet.
    now rewrite (fetchAPI_network_failure net _ _ _ Hnet).
  - discriminate.
Qed.

Lemma getArticleBySlug_not_found_is_not_an_error_witness :
  fst (Loaders.getArticleBySlug finds_nothing "no-such-article"
         StrapiApi.start)
    = Fulfilled
        (page_with (Some {| Types.page := 1; Types.pageSize := 25;
                            Types.pageCount := 0; Types.total := 0 |})) /\
  fst (Loaders.getArticleBySlug server_down "no-such-article"
         StrapiApi.start)
    = Rejected (mkError "API error: 500 Internal Server Error") /\
  fst (Loaders.getArticleBySlug offline "no-such-article" StrapiApi.start)
    = Rejected {| name := "TypeError"; message := "Network request failed" |}.
Proof.
  split; [| split].
  - exact (proj1 (proj1 (getArticleBySlug_not_found_is_not_an_error
                           finds_nothing "no-such-article" StrapiApi.start)
                    not_found_response _ eq_refl eq_refl eq_refl eq_refl)).
  - exact (proj1 (proj1 (proj2 (getArticleBySlug_not_found_is_not_an_error
                                  server_down "no-such-article"
                                  StrapiApi.start))
                    server_error_response eq_refl eq_refl)).
  - exact (proj1 (proj2 (proj2 (getArticleBySlug_not_found_is_not_an_error
                                  offline "no-such-article"
                                  StrapiApi.start)))
             "Network request failed" eq_refl).
Defined.

(** ** Errors from the fetch layer to the hooks *)
Section ErrorPropagation.
Import StrapiApi.
Import Loaders.
Import ReactQuery.
Variable net : nat -> Request -> FetchOutcome ArticlesResponse.

Lemma getArticles_one_request params w :
  length (requests (snd (getArticles net params w)))
    = S (length (requests w)).
Proof.
  rewrite getArticles_sends_one, length_app. simpl. lia.
Qed.

Lemma getArticleBySlug_one_request slug w :
  length (requests (snd (getArticleBySlug net slug w)))
    = S (length (requests w)).
Proof.
  rewrite getArticleBySlug_sends_one, length_app. simpl. lia.
Qed.

(** The error [useQuery] reports for the slug query is the rejection of a
    run of the loader, and four requests went out before it was reported. *)
Lemma useArticleBySlug_error slug w res w' e :
  useQuery Layout.queryClient (Hooks.useArticleBySlug net slug) w
    = (res, w') ->
  error res = Some e ->
  (exists w0, getArticleBySlug net slug w0 = (Rejected e, w')) /\
  length (requests w') = length (requests w) + 4.
Proof.
  unfold useQuery, Hooks.useArticleBySlug, Layout.queryClient.
  cbn [enabled queryFn retry].
  destruct (truthy slug).
  2:{ intros H. inversion H; subst. discriminate. }
  destruct (retryer 3 (getArticleBySlug net slug) w) as [[a | e0] w1] eqn:Hr;
    intros H; inversion H; subst; simpl; intros He; inversion He; subst.
  split.
  - exact (retryer_rejected _ _ _ _ _ Hr).
  - exact (retryer_rejected_requests _ (getArticleBySlug_one_request slug)
             _ _ _ _ Hr).
Qed.

(** The same for one page of the infinite query. *)
Lemma useInfiniteArticles_page_error tag param d w w' e :
  fetchPage Layout.queryClient (Hooks.useInfiniteArticles net tag) param d w
    = (Rejected e, w') ->
  (exists w0,
     getArticles net
       (Some {| page := Some param; pageSize := None; tag := tag |}) w0
       = (Rejected e, w')) /\
  length (requests w') = length (requests w) + 4.
Proof.
  unfold fetchPage, mbind, async_bind, bind.
  unfold Hooks.useInfiniteArticles, Layout.queryClient.
  cbn [iqueryFn retry default].
  destruct (retryer 3 _ w) as [[a | e0] w1] eqn:Hr; [discriminate |].
  intros H; inversion H; subst.
  split.
  - exact (retryer_rejected _ _ _ _ _ Hr).
  - exact (retryer_rejected_requests _
             (getArticles_one_request _) _ _ _ _ Hr).
Qed.
End ErrorPropagation.

(** ** Retries that all fail *)
Section RetriedFetch.
Import StrapiApi.
Import ReactQuery.
Context {T : Type}.
Variable net : nat -> Request -> FetchOutcome T.
Variable req : Request.

Lemma retryer_ext {A} (f g : Async World A) (n : nat) (w : World) :
  (forall w0, f w0 = g w0) -> retryer n f w = retryer n g w.
Proof.
  intros Hfg. revert w. induction n as [| n IH]; intros w; simpl;
    rewrite Hfg; destruct (g w) as [[a | e] w']; auto.
Qed.

(** When the first [m + 1] answers are responses that are not ok, a query
    with [m] retries ends with the error made from the last of them. *)
Lemma retryer_all_not_ok (m : nat) (w : World) :
  (forall k, k <= m ->
     exists r, net (length (requests w) + k) req = Responded r /\
               ok r = false) ->
  exists r w',
    net (length (requests w) + m) req = Responded r /\
    ok r = false /\
    retryer m (fetchAPI net (endpoint req) (options req)) w
      = (Rejected (mkError ("API error: " ++ pretty (status r) ++ " "
                              ++ statusText r)), w') /\
    length (requests w') = length (requests w) + S m.
Proof.
  revert w. induction m as [| m IH]; intros w Hall.
  - destruct (Hall 0) as (r & Hnet & Hok); [lia |].
    exists r. eexists. split; [exact Hnet |]. split; [exact Hok |].
    rewrite Nat.add_0_r in Hnet. simpl.
    rewrite (fetchAPI_not_ok net req w r Hnet Hok).
    split; [reflexivity |]. simpl. rewrite length_app. simpl. lia.
  - destruct (Hall 0) as (r0 & Hnet0 & Hok0); [lia |].
    rewrite Nat.add_0_r in Hnet0.
    cbn [retryer]. rewrite (fetchAPI_not_ok net req w r0 Hnet0 Hok0).
    set (w1 := logged (sent w req) ["API error response:"; text r0]).
    assert (Hlen : length (requests w1) = S (length (requests w))).
    { subst w1. simpl. rewrite length_app. simpl. lia. }
    destruct (IH w1) as (r & w' & Hnet & Hok & Hrun & Hreq).
    { intros k Hk. rewrite Hlen.
      replace (S (length (requests w)) + k)
        with (length (requests w) + S k) by lia.
      apply Hall. lia. }
    exists r, w'. rewrite Hlen in Hnet, Hreq.
    replace (length (requests w) + S m)
      with (S (length (requests w)) + m) by lia.
    repeat split; auto. lia.
Qed.
End RetriedFetch.

(** C7.  On a non-success response the wrapper sends its one request,
    writes the body to the console and rejects with an error whose message
    carries the status.  The loaders are the wrapper applied to their
    request, so they reject with the same error and send nothing more.  The
    query client is configured with three retries.  When the request of a
    hook and its three retries are all answered with a non-success
    response, the hook reports the wrapper's error for the fourth response,
    unchanged, after four requests: the slug query as its [error], a page
    fetch of the infinite query as its rejection.  Conversely an error that
    a hook reports is the rejection of a run of its loader, reported after
    four requests. *)
Theorem http_error_reaches_the_hooks
  (net : nat -> StrapiApi.Request
         -> StrapiApi.FetchOutcome Loaders.ArticlesResponse)
  (req : StrapiApi.Request) (w : StrapiApi.World)
  (r : StrapiApi.Response Loaders.ArticlesResponse) :
  net (length (StrapiApi.requests w)) req = StrapiApi.Responded r ->
  StrapiApi.ok r = false ->
  StrapiApi.fetchAPI net (StrapiApi.endpoint req) (StrapiApi.options req) w
    = (Rejected (mkError ("API error: " ++ pretty (StrapiApi.status r) ++ " "
                            ++ StrapiApi.statusText r)),
       StrapiApi.logged (StrapiApi.sent w req)
         ["API error response:"; StrapiApi.text r]) /\
  (forall params w0,
     let req0 := Wire.articles_page
                   (default 1%Z (params ≫= Loaders.page))
                   (default Loaders.PAGE_SIZE (params ≫= Loaders.pageSize))
                   (params ≫= Loaders.tag) in
     Loaders.getArticles net params w0
       = StrapiApi.fetchAPI net (StrapiApi.endpoint req0)
           (StrapiApi.options req0) w0) /\
  (forall slug w0,
     Loaders.getArticleBySlug net slug w0
       = StrapiApi.fetchAPI net
           (StrapiApi.endpoint (Wire.article_by_slug slug))
           (StrapiApi.options (Wire.article_by_slug slug)) w0) /\
  ReactQuery.retry Layout.queryClient = 3 /\
  (forall slug w0,
     truthy slug = true ->
     (forall k, k <= 3 ->
        exists r0,
          net (length (StrapiApi.requests w0) + k) (Wire.article_by_slug slug)
            = StrapiApi.Responded r0 /\
          StrapiApi.ok r0 = false) ->
     exists r3 w',
       net (length (StrapiApi.requests w0) + 3) (Wire.article_by_slug slug)
         = StrapiApi.Responded r3 /\
       StrapiApi.ok r3 = false /\
       ReactQuery.useQuery Layout.queryClient
         (Hooks.useArticleBySlug net slug) w0
       = ({| ReactQuery.data := None;
             ReactQuery.error :=
               Some (mkError ("API error: " ++ pretty (StrapiApi.status r3)
                                ++ " " ++ StrapiApi.statusText r3)) |}, w') /\
       length (StrapiApi.requests w')
         = length (StrapiApi.requests w0) + 4) /\
  (forall tag param d w0,
     (forall k, k <= 3 ->
        exists r0,
          net (length (StrapiApi.requests w0) + k)
            (Wire.articles_page param Loaders.PAGE_SIZE tag)
            = StrapiApi.Responded r0 /\
          StrapiApi.ok r0 = false) ->
     exists r3 w',
       net (length (StrapiApi.requests w0) + 3)
         (Wire.articles_page param Loaders.PAGE_SIZE tag)
         = StrapiApi.Responded r3 /\
       StrapiApi.ok r3 = false /\
       ReactQuery.fetchPage Layout.queryClient
         (Hooks.useInfiniteArticles net tag) param d w0
       = (Rejected (mkError ("API error: " ++ pretty (StrapiApi.status r3)
                               ++ " " ++ StrapiApi.statusText r3)), w') /\
       length (StrapiApi.requests w')
         = length (StrapiApi.requests w0) + 4) /\
  (forall slug w0 res w' e,
     ReactQuery.useQuery Layout.queryClient
       (Hooks.useArticleBySlug net slug) w0 = (res, w') ->
     ReactQuery.error res = Some e ->
     (exists w1, Loaders.getArticleBySlug net slug w1 = (Rejected e, w')) /\
     length (StrapiApi.requests w')
       = length (StrapiApi.requests w0) + 4) /\
  (forall tag param d w0 w' e,
     ReactQuery.fetchPage Layout.queryClient
       (Hooks.useInfiniteArticles net tag) param d w0 = (Rejected e, w') ->
     (exists w1,
        Loaders.getArticles net
          (Some {| Loaders.page := Some param; Loaders.pageSize := None;
                   Loaders.tag := tag |}) w1 = (Rejected e, w')) /\
     length (StrapiApi.requests w')
       = length (StrapiApi.requests w0) + 4).
Proof.
  intros Hnet Hok.
  split; [exact (fetchAPI_not_ok net req w r Hnet Hok) |].
  split; [exact (getArticles_is_fetchAPI net) |].
  split; [exact (getArticleBySlug_is_fetchAPI net) |].
  split; [reflexivity |].
  split; [| split; [| split]].
  - intros slug w0 Hslug Hall.
    destruct (retryer_all_not_ok net (Wire.article_by_slug slug) 3 w0 Hall)
      as (r3 & w' & Hnet3 & Hok3 & Hrun & Hlen).
    exists r3, w'. split; [exact Hnet3 |]. split; [exact Hok3 |].
    unfold ReactQuery.useQuery, Hooks.useArticleBySlug, Layout.queryClient.
    cbn [ReactQuery.enabled ReactQuery.queryFn ReactQuery.retry].
    rewrite Hslug.
    rewrite (retryer_ext _ _ 3 w0 (getArticleBySlug_is_fetchAPI net slug)).
    rewrite Hrun. split; [reflexivity | exact Hlen].
  - intros tag param d w0 Hall.
    destruct (retryer_all_not_ok net
                (Wire.articles_page param Loaders.PAGE_SIZE tag) 3 w0 Hall)
      as (r3 & w' & Hnet3 & Hok3 & Hrun & Hlen).
    exists r3, w'. split; [exact Hnet3 |]. split; [exact Hok3 |].
    unfold ReactQuery.fetchPage, mbind, async_bind, bind.
    unfold Hooks.useInfiniteArticles, Layout.queryClient.
    cbn [ReactQuery.iqueryFn ReactQuery.retry default].
    rewrite (retryer_ext _
               (StrapiApi.fetchAPI net
                  (StrapiApi.endpoint
                     (Wire.articles_page param Loaders.PAGE_SIZE tag))
                  (StrapiApi.options
                     (Wire.articles_page param Loaders.PAGE_SIZE tag)))
               3 w0).
    + rewrite Hrun. split; [reflexivity | exact Hlen].
    + intros w1. apply (getArticles_is_fetchAPI net).
  - exact (useArticleBySlug_error net).
  - exact (useInfiniteArticles_page_error net).
Qed.

Lemma http_error_reaches_the_hooks_witness :
  StrapiApi.fetchAPI server_down "articles"
    (StrapiApi.options (Wire.article_by_slug "hello")) StrapiApi.start
  = (Rejected (mkError "API error: 500 Internal Server Error"),
     {| StrapiApi.requests := [Wire.article_by_slug "hello"];
        StrapiApi.console :=
          [["API error response:"; "Internal Server Error"]] |}) /\
  exists r3 w',
    server_down (length (StrapiApi.requests StrapiApi.start) + 3)
      (Wire.article_by_slug "hello") = StrapiApi.Responded r3 /\
    StrapiApi.ok r3 = false /\
    ReactQuery.useQuery Layout.queryClient
      (Hooks.useArticleBySlug server_down "hello") StrapiApi.start
    = ({| ReactQuery.data := None;
          ReactQuery.error :=
            Some (mkError ("API error: " ++ pretty (StrapiApi.status r3)
                             ++ " " ++ StrapiApi.statusText r3)) |}, w') /\
    length (StrapiApi.requests w')
      = length (StrapiApi.requests StrapiApi.start) + 4.
Proof.
  split.
  - exact (proj1 (http_error_reaches_the_hooks server_down
                    (Wire.article_by_slug "hello") StrapiApi.start
                    server_error_response eq_refl eq_refl)).
  - refine (proj1 (proj2 (proj2 (proj2 (proj2
              (http_error_reaches_the_hooks server_down
                 (Wire.article_by_slug "hello") StrapiApi.start
                 server_error_response eq_refl eq_refl)))))
              "hello" StrapiApi.start eq_refl _).
    intros k _. exists server_error_response. split; reflexivity.
Defined.

(** The slug query against a backend that answers 500 every time: the hook
    reports the error of the wrapper after four requests. *)
Example useArticleBySlug_server_down :
  ReactQuery.useQuery Layout.queryClient
    (Hooks.useArticleBySlug server_down "hello") StrapiApi.start
  = ({| ReactQuery.data := None;
        ReactQuery.error :=
          Some (mkError "API error: 500 Internal Server Error") |},
     {| StrapiApi.requests :=
          [Wire.article_by_slug "hello"; Wire.article_by_slug "hello";
           Wire.article_by_slug "hello"; Wire.article_by_slug "hello"];
        StrapiApi.console :=
          [["API error response:"; "Internal Server Error"];
           ["API error response:"; "Internal Server Error"];
           ["API error response:"; "Internal Server Error"];
           ["API error response:"; "Internal Server Error"]] |}).
Proof. reflexivity. Qed.

(** ** The end-reached handler *)
Section EndReached.
Import ReactQuery.
Import BlogScreen.

Lemma isFetchingNextPage_false (s : State) :
  isFetchingNextPage s = false <-> outstanding s = [].
Proof.
  unfold isFetchingNextPage. destruct (outstanding s); split; congruence.
Qed.

Lemma hasNextPage_param (s : State) :
  BlogScreen.hasNextPage s = true <->
  exists param, nextPageParam Hooks.getNextPageParam (held s) = Some param.
Proof.
  unfold BlogScreen.hasNextPage, ReactQuery.hasNextPage.
  destruct (nextPageParam _ _) as [param |]; split.
  - intros _. now exists param.
  - reflexivity.
  - discriminate.
  - intros [param H]. discriminate.
Qed.

(** The handler never touches the pages held or the flags it was made
    from; it leaves the outstanding fetches alone or adds one. *)
Lemma onEndReached_cases (flags : Flags) (s : State) :
  held (onEndReached flags s) = held s /\
  rendered (onEndReached flags s) = rendered s /\
  (outstanding (onEndReached flags s) = outstanding s \/
   exists param,
     flag_hasNextPage flags = true /\
     flag_isFetchingNextPage flags = false /\
     nextPageParam Hooks.getNextPageParam (held s) = Some param /\
     outstanding (onEndReached flags s) = (outstanding s ++ [param])%list).
Proof.
  unfold onEndReached, fetchNextPage.
  destruct (flag_hasNextPage flags) eqn:Hn; simpl; [| auto].
  destruct (flag_isFetchingNextPage flags) eqn:Hf; simpl; [auto |].
  destruct (nextPageParam _ _) as [param |] eqn:Hp; simpl; [| auto].
  repeat split. right. exists param. auto.
Qed.

(** A handler whose flags pass the guard sends a request each time it is
    called, as long as no render replaces it. *)
Lemma stale_handler_repeats (s : State) (param : Z) (n : nat) :
  flag_hasNextPage (rendered s) = true ->
  flag_isFetchingNextPage (rendered s) = false ->
  nextPageParam Hooks.getNextPageParam (held s) = Some param ->
  run s (repeat EndReached n)
    = {| held := held s;
         outstanding := outstanding s ++ repeat param n;
         rendered := rendered s |}.
Proof.
  revert s. induction n as [| n IH]; intros s Hn Hf Hp.
  - simpl. rewrite app_nil_r. now destruct s.
  - cbn [repeat].
    change (run s (EndReached :: repeat EndReached n))
      with (run (step s EndReached) (repeat EndReached n)).
    assert (Hstep : step s EndReached
                    = {| held := held s;
                         outstanding := outstanding s ++ [param];
                         rendered := rendered s |}).
    { cbn [step]. unfold onEndReached, fetchNextPage.
      now rewrite Hn, Hf, Hp. }
    rewrite Hstep, IH by assumption. cbn [held outstanding rendered].
    now rewrite <- app_assoc.
Qed.

(** With the flags of the current state, the guard does what it is there
    for. *)
Lemma fresh_handler_guards (s : State) :
  length (outstanding s) <= 1 ->
  length (outstanding (onEndReached (flags_of s) s)) <= 1.
Proof.
  intros H.
  destruct (onEndReached_cases (flags_of s) s)
    as (_ & _ & [-> | (param & _ & Hf & _ & ->)]); [exact H |].
  apply isFetchingNextPage_false in Hf. rewrite Hf. simpl. lia.
Qed.
End EndReached.

(** C8 fails on the code.  The screen shows page 1 of 3 and nothing is in
    flight.  The list reports its end three times before the screen renders
    again: the handler of that render tests the flags it was made with, so
    all three calls pass the guard, and three requests for page 2 are
    outstanding together, the second and third issued while the query was
    already fetching the next page.  With a render between the reports the
    guard holds and one request is outstanding. *)
Theorem onEndReached_fetches_again_before_the_next_render :
  BlogScreen.isFetchingNextPage
    (BlogScreen.run first_page_shown [BlogScreen.EndReached]) = true /\
  BlogScreen.outstanding
    (BlogScreen.run first_page_shown
       [BlogScreen.EndReached; BlogScreen.EndReached; BlogScreen.EndReached])
    = [2%Z; 2%Z; 2%Z] /\
  BlogScreen.outstanding
    (BlogScreen.run first_page_shown
       [BlogScreen.EndReached; BlogScreen.Rendered;
        BlogScreen.EndReached; BlogScreen.Rendered;
        BlogScreen.EndReached])
    = [2%Z].
Proof. repeat split. Qed.

(** ** One paged sequence per filter *)
Section RepeatedRequest.
Import StrapiApi.
Import ReactQuery.
Context {A : Type}.
Variable fn : Async World A.
Variable req : Request.
Hypothesis sends_req :
  forall w, requests (snd (fn w)) = (requests w ++ [req])%list.

End RepeatedRequest.

Section KeyedCache.
Import StrapiApi.
Import Loaders.
Import ReactQuery.
Variable net : nat -> Request -> FetchOutcome ArticlesResponse.







End KeyedCache.




(** * Further properties of the client *)

(** ** Media URLs and images *)

Lemma prefix_app_l (p a b : string) :
  String.prefix p a = true -> String.prefix p (a ++ b) = true.
Proof.
  revert a. induction p as [| c p IH]; intros a.
  - intros _. destruct a, b; reflexivity.
  - destruct a as [| c' a]; simpl; [discriminate |].
    destruct (Ascii.ascii_dec c c'); [apply IH | discriminate].
Qed.

Lemma truthy_app_r (a s : string) :
  truthy s = true -> truthy (a ++ s) = true.
Proof. destruct a; simpl; [trivial | reflexivity]. Qed.

(** X1.  When the configured base URL starts with [http], as the default
    does, every URL that media resolution returns starts with [http], and
    resolving it once more gives it back unchanged. *)
Theorem getStrapiMedia_idempotent
  (env : option string) (url : option string) (resolved : string) :
  String.prefix "http" (Utils.getStrapiURL env) = true ->
  Utils.getStrapiMedia env url = Some resolved ->
  String.prefix "http" resolved = true /\
  Utils.getStrapiMedia env (Some resolved) = Some resolved.
Proof.
  intros Hbase Hres.
  assert (Hhttp : String.prefix "http" resolved = true).
  { destruct url as [u |]; [| discriminate].
    destruct (truthy u) eqn:Hu.
    - rewrite (getStrapiMedia_truthy env u Hu) in Hres.
      destruct (String.prefix "http" u) eqn:Hp; injection Hres as <-.
      + exact Hp.
      + now apply prefix_app_l.
    - now rewrite (getStrapiMedia_falsy env u Hu) in Hres. }
  split; [exact Hhttp |].
  assert (Ht : truthy resolved = true).
  { destruct resolved; [discriminate | reflexivity]. }
  rewrite (getStrapiMedia_truthy env resolved Ht). now rewrite Hhttp.
Qed.

Lemma getStrapiMedia_idempotent_witness :
  Utils.getStrapiMedia None (Some "http://localhost:1337/uploads/a.png")
    = Some "http://localhost:1337/uploads/a.png".
Proof.
  exact (proj2 (getStrapiMedia_idempotent None (Some "/uploads/a.png")
                  "http://localhost:1337/uploads/a.png" eq_refl eq_refl)).
Defined.

(** X2.  The image component renders nothing exactly when its source is the
    empty string.  For every other source it renders an image whose URI is
    the source itself when that starts with [http] and the base URL followed
    by the source otherwise.  Its accessibility label is the given alt
    text, unless the passed-through props carry an accessibility label of
    their own, which then replaces the alt text. *)
Theorem StrapiImage_null_iff_empty_src
  (env : option string) (src : string) (alt : option string)
  (props : list (string * string)) :
  (StrapiImage.StrapiImage env src alt props = None <-> src = "") /\
  (src <> "" ->
   exists img,
     StrapiImage.StrapiImage env src alt props = Some img /\
     StrapiImage.uri img
       = (if String.prefix "http" src then src
          else Utils.getStrapiURL env ++ src) /\
     StrapiImage.props img = props /\
     (StrapiImage.prop_of "accessibilityLabel" props = None ->
      StrapiImage.accessibilityLabel img = alt) /\
     (forall label,
        StrapiImage.prop_of "accessibilityLabel" props = Some label ->
        StrapiImage.accessibilityLabel img = Some label)).
Proof.
  assert (Hne : src <> "" ->
    exists img,
      StrapiImage.StrapiImage env src alt props = Some img /\
      StrapiImage.uri img
        = (if String.prefix "http" src then src
           else Utils.getStrapiURL env ++ src) /\
      StrapiImage.props img = props /\
      (StrapiImage.prop_of "accessibilityLabel" props = None ->
       StrapiImage.accessibilityLabel img = alt) /\
      (forall label,
         StrapiImage.prop_of "accessibilityLabel" props = Some label ->
         StrapiImage.accessibilityLabel img = Some label)).
  { intros H. apply truthy_nonempty in H. unfold StrapiImage.StrapiImage.
    rewrite (getStrapiMedia_truthy env src H). cbv zeta.
    assert (Ht : truthy_opt
                   (Some (if String.prefix "http" src then src
                          else Utils.getStrapiURL env ++ src)) = true).
    { destruct (String.prefix "http" src); simpl;
        [exact H | now apply truthy_app_r]. }
    rewrite Ht. cbn [negb]. eexists. split; [reflexivity |].
    cbn [StrapiImage.uri StrapiImage.props StrapiImage.accessibilityLabel].
    repeat split.
    - now intros ->.
    - now intros label ->. }
  split; [| exact Hne].
  split.
  - intros Hnone. destruct src as [| c src]; [reflexivity |].
    destruct Hne as (img & Himg & _); [discriminate |].
    rewrite Himg in Hnone. discriminate.
  - intros ->. reflexivity.
Qed.

Lemma StrapiImage_null_iff_empty_src_witness :
  exists img,
    StrapiImage.StrapiImage None "/uploads/a.png" (Some "A")
      [("accessibilityLabel", "B")] = Some img /\
    StrapiImage.uri img = "http://localhost:1337/uploads/a.png" /\
    StrapiImage.accessibilityLabel img = Some "B".
Proof.
  assert (Hne : "/uploads/a.png" <> "") by discriminate.
  destruct (proj2 (StrapiImage_null_iff_empty_src None "/uploads/a.png"
                     (Some "A") [("accessibilityLabel", "B")]) Hne)
    as (img & Himg & Huri & _ & _ & Hlabel).
  exists img. split; [exact Himg |]. split; [exact Huri |].
  exact (Hlabel "B" eq_refl).
Defined.

(** ** Requests *)

(** X3.  Whatever the network answers, a call of the fetch wrapper adds
    exactly its own request to the requests sent, and it writes to the
    console exactly when the answer is a response that is not ok: then one
    line with the response text; on success and on a transport failure the
    console is left as it was. *)
Theorem fetchAPI_logs_only_failed_responses {T : Type}
  (net : nat -> StrapiApi.Request -> StrapiApi.FetchOutcome T)
  (req : StrapiApi.Request) (w : StrapiApi.World) :
  let w' := snd (StrapiApi.fetchAPI net (StrapiApi.endpoint req)
                   (StrapiApi.options req) w) in
  StrapiApi.requests w' = (StrapiApi.requests w ++ [req])%list /\
  ((exists r,
      net (length (StrapiApi.requests w)) req = StrapiApi.Responded r /\
      StrapiApi.ok r = false /\
      StrapiApi.console w'
        = (StrapiApi.console w
             ++ [["API error response:"; StrapiApi.text r]])%list) \/
   (StrapiApi.console w' = StrapiApi.console w /\
    ~ exists r,
        net (length (StrapiApi.requests w)) req = StrapiApi.Responded r /\
        StrapiApi.ok r = false)).
Proof.
  intros w'. split; [apply fetchAPI_sends_one |].
  subst w'.
  destruct (net (length (StrapiApi.requests w)) req) as [m | r] eqn:Hnet.
  - right. rewrite (fetchAPI_network_failure net req w m Hnet).
    split; [reflexivity |]. intros (r & Hr & _). discriminate.
  - destruct (StrapiApi.ok r) eqn:Hok.
    + right. split.
      * destruct req as [ep opts]. simpl.
        unfold StrapiApi.fetchAPI, mbind, async_bind, bind, StrapiApi.fetch.
        rewrite Hnet, Hok. simpl. unfold StrapiApi.response_json.
        now destruct (StrapiApi.json r).
      * intros (r' & Hr & Hok'). congruence.
    + left. exists r. rewrite (fetchAPI_not_ok net req w r Hnet Hok).
      split; [reflexivity | split; [exact Hok | reflexivity]].
Qed.

(** X4.  The articles loader fills in its defaults: called without
    parameters, with an empty parameter object, or with the empty string as
    tag, it does the same thing, which is to send one request for page 1
    with page size 10, sorted by creation date, with no filter.  The
    infinite-articles hook nevertheless keeps the empty tag and the missing
    tag under two different query keys, whose query functions coincide. *)
Theorem getArticles_defaults
  (net : nat -> StrapiApi.Request
         -> StrapiApi.FetchOutcome Loaders.ArticlesResponse)
  (w : StrapiApi.World) :
  Loaders.getArticles net
    (Some {| Loaders.page := None; Loaders.pageSize := None;
             Loaders.tag := None |}) w
    = Loaders.getArticles net None w /\
  Loaders.getArticles net
    (Some {| Loaders.page := None; Loaders.pageSize := None;
             Loaders.tag := Some "" |}) w
    = Loaders.getArticles net None w /\
  StrapiApi.requests (snd (Loaders.getArticles net None w))
    = (StrapiApi.requests w ++ [Wire.articles_page 1 10 None])%list /\
  (StrapiApi.options (Wire.articles_page 1 10 None)
     ≫= StrapiApi.filters) = None /\
  ReactQuery.iqueryKey (Hooks.useInfiniteArticles net None)
    <> ReactQuery.iqueryKey (Hooks.useInfiniteArticles net (Some "")) /\
  (forall pageParam w0,
     ReactQuery.iqueryFn (Hooks.useInfiniteArticles net (Some ""))
       pageParam w0
     = ReactQuery.iqueryFn (Hooks.useInfiniteArticles net None)
         pageParam w0).
Proof.
  repeat split.
  - exact (getArticles_sends_one net None w).
  - discriminate.
Qed.

(** ** Walking through the pages *)
Section PageWalk.
Import StrapiApi.
Import Loaders.
Import ReactQuery.
Variable net : nat -> Request -> FetchOutcome ArticlesResponse.
Variable pageCount : Z.
Variable tag : option string.
Hypothesis served : serves_pages net pageCount.

(** Against such a backend a page fetch succeeds at the first attempt. *)
Lemma fetchPage_served (param : Z) (d : InfiniteData ArticlesResponse)
  (w : World) :
  exists body p,
    fetchPage Layout.queryClient (Hooks.useInfiniteArticles net tag) param d w
      = (Fulfilled {| pages := pages d ++ [body];
                      pageParams := pageParams d ++ [param] |},
         sent w (Wire.articles_page param PAGE_SIZE tag)) /\
    Types.pagination (Types.meta body) = Some p /\
    Types.page p = param /\
    Types.pageCount p = pageCount.
Proof.
  destruct (served (length (requests w))
              (Wire.articles_page param PAGE_SIZE tag))
    as (r & body & p & Hnet & Hok & Hjson & Hp & Hpage & Hcount).
  exists body, p. split; [| auto].
  unfold fetchPage, mbind, async_bind, bind.
  unfold Hooks.useInfiniteArticles, Layout.queryClient.
  cbn [iqueryFn retry default].
  rewrite (retryer_fulfilled_first _ 3 w
             (sent w (Wire.articles_page param PAGE_SIZE tag)) body).
  - reflexivity.
  - rewrite getArticles_is_fetchAPI. cbv zeta.
    exact (fetchAPI_ok net _ w r body Hnet Hok Hjson).
Qed.

Lemma page_requests_snoc (k : nat) :
  page_requests tag (S k)
    = (page_requests tag k
         ++ [Wire.articles_page (Z.of_nat (S k)) PAGE_SIZE tag])%list.
Proof.
  unfold page_requests. rewrite seq_S, map_app. reflexivity.
Qed.

Lemma open_and_scroll_S (n : nat) (c : Cache World ArticlesResponse) :
  open_and_scroll net tag (S n) c
    = fetchNextPage Layout.queryClient (Hooks.useInfiniteArticles net tag)
        (open_and_scroll net tag n c).
Proof. reflexivity. Qed.

(** After the list is opened and scrolled [k] times, with [k + 1] pages in
    range, the pages 1 to [k + 1] are held, and they were asked for in this
    order. *)
Lemma walk_invariant (c : Cache World ArticlesResponse) (k : nat) :
  queries c !! iqueryKey (Hooks.useInfiniteArticles net tag) = None ->
  (Z.of_nat k < pageCount)%Z ->
  exists d lastPage p,
    queries (open_and_scroll net tag k c)
      !! iqueryKey (Hooks.useInfiniteArticles net tag) = Some d /\
    pageParams d = map Z.of_nat (seq 1 (S k)) /\
    length (pages d) = S k /\
    last (pages d) = Some lastPage /\
    Types.pagination (Types.meta lastPage) = Some p /\
    Types.page p = Z.of_nat (S k) /\
    Types.pageCount p = pageCount /\
    requests (world (open_and_scroll net tag k c))
      = (requests (world c) ++ page_requests tag (S k))%list.
Proof.
  intros Hfresh. induction k as [| k IH]; intros Hk.
  - unfold open_and_scroll. simpl Nat.iter. unfold observe. rewrite Hfresh.
    destruct (fetchPage_served 1 {| pages := []; pageParams := [] |}
                (world c)) as (body & p & Hrun & Hp & Hpage & Hcount).
    cbn [initialPageParam Hooks.useInfiniteArticles].
    rewrite Hrun. cbn [settle queries world].
    exists {| pages := [body]; pageParams := [1%Z] |}, body, p.
    rewrite lookup_insert_eq. repeat split; auto.
  - destruct IH as (d & lastPage & p & Hd & Hparams & Hlen & Hlast & Hp
                    & Hpage & Hcount & Hreq); [lia |].
    rewrite open_and_scroll_S. unfold fetchNextPage. rewrite Hd.
    assert (Hnext : nextPageParam
                      (getNextPageParam (Hooks.useInfiniteArticles net tag)) d
                    = Some (Z.of_nat (S (S k)))).
    { unfold nextPageParam. rewrite Hlast. simpl.
      rewrite (getNextPageParam_more lastPage p Hp) by lia.
      f_equal. lia. }
    rewrite Hnext.
    destruct (fetchPage_served (Z.of_nat (S (S k))) d
                (world (open_and_scroll net tag k c)))
      as (body & p' & Hrun & Hp' & Hpage' & Hcount').
    rewrite Hrun. cbn [settle queries world].
    exists {| pages := pages d ++ [body];
              pageParams := pageParams d ++ [Z.of_nat (S (S k))] |}, body, p'.
    rewrite lookup_insert_eq. cbn [pages pageParams world].
    repeat split; auto.
    + rewrite Hparams. now rewrite (seq_S (S k)), map_app.
    + rewrite length_app, Hlen. simpl. lia.
    + apply last_snoc.
    + unfold sent. cbn [requests]. rewrite Hreq, <- app_assoc.
      now rewrite (page_requests_snoc (S k)).
Qed.

Lemma scroll_past_the_end (c : Cache World ArticlesResponse)
  (d : InfiniteData ArticlesResponse) (m : nat) :
  queries c !! iqueryKey (Hooks.useInfiniteArticles net tag) = Some d ->
  nextPageParam Hooks.getNextPageParam d = None ->
  Nat.iter m
    (fetchNextPage Layout.queryClient (Hooks.useInfiniteArticles net tag)) c
  = c.
Proof.
  intros Hd Hnone. induction m as [| m IH]; [reflexivity |].
  simpl Nat.iter. rewrite IH. unfold fetchNextPage. rewrite Hd.
  cbn [getNextPageParam Hooks.useInfiniteArticles]. now rewrite Hnone.
Qed.
End PageWalk.

(** X5.  Against a backend that answers each request with the metadata of
    the page asked for, out of [pageCount] pages, opening the list under a
    tag with nothing cached and reaching its end [k] times, with
    [k < pageCount], sends the requests for the pages 1 to [k + 1] under
    that tag, in this order and once each, and holds these [k + 1] pages.
    There is a next page exactly while [k + 1 < pageCount]; once the last
    page is held, reaching the end again changes nothing. *)
Theorem pagination_walks_the_pages_in_order
  (net : nat -> StrapiApi.Request
         -> StrapiApi.FetchOutcome Loaders.ArticlesResponse)
  (pageCount : Z) (tag : option string)
  (c : ReactQuery.Cache StrapiApi.World Loaders.ArticlesResponse)
  (k : nat) :
  serves_pages net pageCount ->
  ReactQuery.queries c
    !! ReactQuery.iqueryKey (Hooks.useInfiniteArticles net tag) = None ->
  (Z.of_nat k < pageCount)%Z ->
  exists d,
    ReactQuery.queries (open_and_scroll net tag k c)
      !! ReactQuery.iqueryKey (Hooks.useInfiniteArticles net tag) = Some d /\
    ReactQuery.pageParams d = map Z.of_nat (seq 1 (S k)) /\
    length (ReactQuery.pages d) = S k /\
    StrapiApi.requests (ReactQuery.world (open_and_scroll net tag k c))
      = (StrapiApi.requests (ReactQuery.world c)
           ++ page_requests tag (S k))%list /\
    (ReactQuery.hasNextPage Hooks.getNextPageParam d = true
       <-> (Z.of_nat (S k) < pageCount)%Z) /\
    (Z.of_nat (S k) = pageCount ->
     forall m, open_and_scroll net tag (m + k) c
               = open_and_scroll net tag k c).
Proof.
  intros Hserved Hfresh Hk.
  destruct (walk_invariant net pageCount tag Hserved c k Hfresh Hk)
    as (d & lastPage & p & Hd & Hparams & Hlen & Hlast & Hp & Hpage
        & Hcount & Hreq).
  exists d. repeat split; auto.
  - rewrite (hasNextPage_last _ _ _ Hlast).
    destruct (Hooks.getNextPageParam lastPage) eqn:Hn; [| discriminate].
    intros _. destruct (Z.lt_ge_cases (Z.of_nat (S k)) pageCount); [lia |].
    rewrite (getNextPageParam_done lastPage p Hp) in Hn by lia.
    discriminate.
  - intros Hlt. rewrite (hasNextPage_last _ _ _ Hlast).
    now rewrite (getNextPageParam_more lastPage p Hp) by lia.
  - intros Hend m. unfold open_and_scroll. rewrite Nat.iter_add.
    apply (scroll_past_the_end net tag _ d m Hd).
    unfold ReactQuery.nextPageParam. rewrite Hlast. simpl.
    apply (getNextPageParam_done lastPage p Hp). lia.
Qed.

Lemma three_pages_serves_pages : serves_pages three_pages 3.
Proof.
  intros i req. eexists _, _, _. repeat split.
Defined.

Lemma pagination_walks_the_pages_in_order_witness :
  exists d,
    ReactQuery.queries (open_and_scroll three_pages (Some "b") 2 empty_cache)
      !! ReactQuery.iqueryKey (Hooks.useInfiniteArticles three_pages (Some "b"))
      = Some d /\
    ReactQuery.pageParams d = [1%Z; 2%Z; 3%Z] /\
    length (ReactQuery.pages d) = 3 /\
    StrapiApi.requests
      (ReactQuery.world (open_and_scroll three_pages (Some "b") 2 empty_cache))
      = (StrapiApi.requests (ReactQuery.world empty_cache)
           ++ page_requests (Some "b") 3)%list.
Proof.
  destruct (pagination_walks_the_pages_in_order three_pages 3 (Some "b")
              empty_cache 2 three_pages_serves_pages eq_refl eq_refl)
    as (d & H1 & H2 & H3 & H4 & _).
  exists d. repeat split; assumption.
Defined.

(** ** The article list of the blog screen *)
Section ArticleList.
Import ReactQuery.
Import BlogScreen.

Lemma articles_snoc (d : InfiniteData Loaders.ArticlesResponse)
  (page : Loaders.ArticlesResponse) (params : list Z) :
  articles (Some {| pages := pages d ++ [page]; pageParams := params |})
    = (articles (Some d) ++ Types.data page)%list.
Proof.
  unfold articles. cbn [pages]. rewrite map_app, concat_app. simpl.
  now rewrite app_nil_r.
Qed.

Lemma totalCount_snoc (d : InfiniteData Loaders.ArticlesResponse)
  (page : Loaders.ArticlesResponse) (params : list Z) :
  pages d <> [] ->
  totalCount (Some {| pages := pages d ++ [page]; pageParams := params |})
    = totalCount (Some d).
Proof.
  intros H. unfold totalCount. cbn [pages].
  destruct (pages d) as [| first rest]; [congruence | reflexivity].
Qed.

Lemma step_grows (s : State) (e : Event) :
  exists more,
    articles (Some (held (step s e))) = (articles (Some (held s)) ++ more)%list
    /\ (e = EndReached -> more = [])
    /\ length (pages (held s)) <= length (pages (held (step s e)))
    /\ (pages (held s) <> [] ->
        totalCount (Some (held (step s e))) = totalCount (Some (held s))).
Proof.
  assert (Hsame : forall s' : State, held s' = held s ->
            exists more,
              articles (Some (held s')) = (articles (Some (held s)) ++ more)%list
              /\ more = []
              /\ length (pages (held s)) <= length (pages (held s'))
              /\ (pages (held s) <> [] ->
                  totalCount (Some (held s')) = totalCount (Some (held s)))).
  { intros s' ->. exists []. rewrite app_nil_r. auto. }
  destruct e as [| | page | reason]; cbn [step].
  - destruct (Hsame (onEndReached (rendered s) s))
      as (more & H1 & H2 & H3 & H4).
    + apply onEndReached_cases.
    + exists more. auto.
  - destruct (Hsame {| held := held s; outstanding := outstanding s;
                       rendered := flags_of s |} eq_refl)
      as (more & H1 & H2 & H3 & H4).
    exists more. repeat split; auto.
  - destruct (outstanding s) as [| param [| next rest]].
    + destruct (Hsame s eq_refl) as (more & H1 & H2 & H3 & H4).
      exists more. repeat split; auto.
    + exists (Types.data page). cbn [held].
      rewrite articles_snoc. repeat split.
      * discriminate.
      * cbn [pages]. rewrite length_app. simpl. lia.
      * intros Hne. now apply totalCount_snoc.
    + destruct (Hsame {| held := held s; outstanding := next :: rest;
                         rendered := rendered s |} eq_refl)
        as (more & H1 & H2 & H3 & H4).
      exists more. repeat split; auto.
  - destruct (Hsame {| held := held s; outstanding := tail (outstanding s);
                       rendered := rendered s |}
                eq_refl) as (more & H1 & H2 & H3 & H4).
    exists more. repeat split; auto.
Qed.
End ArticleList.

(** X6.  Whatever happens to the blog screen (end reached, a render, a page
    arriving, a fetch failing), the articles on display stay where they are
    and new ones are only added after them; and once a first page is held, the
    total shown in the header, which is read from that first page, stays
    the same. *)
Theorem blog_list_only_grows_at_its_end
  (s : BlogScreen.State) (events : list BlogScreen.Event) :
  (exists more,
     BlogScreen.articles (Some (BlogScreen.held (BlogScreen.run s events)))
       = (BlogScreen.articles (Some (BlogScreen.held s)) ++ more)%list) /\
  (ReactQuery.pages (BlogScreen.held s) <> [] ->
   BlogScreen.totalCount (Some (BlogScreen.held (BlogScreen.run s events)))
     = BlogScreen.totalCount (Some (BlogScreen.held s))).
Proof.
  revert s. induction events as [| e events IH]; intros s.
  - split; [exists []; now rewrite app_nil_r | reflexivity].
  - change (BlogScreen.run s (e :: events))
      with (BlogScreen.run (BlogScreen.step s e) events).
    destruct (IH (BlogScreen.step s e)) as [[more2 Hart] Htot].
    destruct (step_grows s e) as (more1 & H1 & _ & Hlen & H4).
    split.
    + exists (more1 ++ more2)%list. rewrite Hart, H1. now rewrite <- app_assoc.
    + intros Hne. rewrite Htot; [now apply H4 |].
      intros Hnil. rewrite Hnil in Hlen. simpl in Hlen.
      destruct (ReactQuery.pages (BlogScreen.held s)); [congruence |].
      simpl in Hlen. lia.
Qed.

Lemma blog_list_only_grows_at_its_end_witness :
  BlogScreen.totalCount
    (Some (BlogScreen.held
             (BlogScreen.run first_page_shown
                [BlogScreen.EndReached;
                 BlogScreen.PageArrived
                   (page_with (Some {| Types.page := 2; Types.pageSize := 10;
                                       Types.pageCount := 3;
                                       Types.total := 26 |}))])))
  = 25%Z.
Proof.
  refine (proj2 (blog_list_only_grows_at_its_end first_page_shown _) _).
  discriminate.
Defined.

(** ** The article card *)

(** X7.  The card shows a row of tag chips exactly when the article has at
    least one tag.  The chips are then the first tags of the article in
    their order, at least one and at most three, as many as [min 3] of the
    number of tags, while the detail screen shows all the tags.  Without
    tags, or with an empty list of them, neither shows a row. *)
Theorem ArticleCard_shows_first_three_tags (article : Types.Article) :
  (forall chips,
     ArticleCard.tag_chips article = Some chips ->
     exists tags,
       Types.contentTags article = Some tags /\
       ArticleCard.detail_tag_chips article = Some tags /\
       chips `prefix_of` tags /\
       length chips = Nat.min 3 (length tags) /\
       1 <= length chips <= 3) /\
  (forall tags,
     Types.contentTags article = Some tags ->
     tags <> [] ->
     ArticleCard.tag_chips article = Some (take 3 tags) /\
     ArticleCard.detail_tag_chips article = Some tags) /\
  (Types.contentTags article = None \/ Types.contentTags article = Some [] ->
   ArticleCard.tag_chips article = None /\
   ArticleCard.detail_tag_chips article = None).
Proof.
  unfold ArticleCard.tag_chips, ArticleCard.detail_tag_chips.
  destruct (Types.contentTags article) as [tags |].
  - destruct tags as [| tag tags].
    + split; [discriminate |]. split; [| auto].
      intros tags [= <-] Hne. congruence.
    + assert (Hl : (0 <? length (tag :: tags))%nat = true) by reflexivity.
      rewrite Hl. split; [| split].
      * intros chips H.
        assert (chips = take 3 (tag :: tags)) as -> by congruence.
        exists (tag :: tags). repeat split.
        -- apply prefix_take.
        -- apply length_take.
        -- rewrite length_take. cbn [length]. lia.
        -- rewrite length_take. cbn [length]. lia.
      * intros tags' [= <-] _. split; reflexivity.
      * intros [H | H]; discriminate.
  - split; [discriminate |]. split; [discriminate | auto].
Qed.

Lemma ArticleCard_tag_rows_agree (article : Types.Article) :
  ArticleCard.tag_chips article = None
    <-> ArticleCard.detail_tag_chips article = None.
Proof.
  unfold ArticleCard.tag_chips, ArticleCard.detail_tag_chips.
  destruct (Types.contentTags article) as [tags |]; [| tauto].
  destruct (0 <? length tags)%nat; split; congruence.
Qed.

Lemma ArticleCard_shows_first_three_tags_witness :
  ArticleCard.tag_chips sample_article
    = Some [tag_named 1 "expo"; tag_named 2 "strapi"; tag_named 3 "react"] /\
  ArticleCard.detail_tag_chips sample_article
    = Some [tag_named 1 "expo"; tag_named 2 "strapi";
            tag_named 3 "react"; tag_named 4 "query"].
Proof.
  refine (proj1 (proj2 (ArticleCard_shows_first_three_tags sample_article))
            _ eq_refl _).
  discriminate.
Defined.

(** ** React keys *)
Section Keys.

Lemma string_app_assoc (a b c : string) : (a ++ b) ++ c = a ++ (b ++ c).
Proof.
  induction a as [| x a IH]; [reflexivity |].
  change (String x ((a ++ b) ++ c) = String x (a ++ (b ++ c))).
  now rewrite IH.
Qed.

Lemma has_dash_app_dash (a x : string) :
  has_dash (a ++ String (Ascii.ascii_of_nat 45) x) = true.
Proof.
  induction a as [| c a IH]; [reflexivity |].
  change (is_dash c || has_dash (a ++ String (Ascii.ascii_of_nat 45) x)
          = true).
  rewrite IH. apply orb_true_r.
Qed.

Lemma last_segment_app_dash (a x : string) :
  has_dash x = false ->
  last_segment (a ++ String (Ascii.ascii_of_nat 45) x) = x.
Proof.
  intros Hx. induction a as [| c a IH].
  - change (last_segment (String (Ascii.ascii_of_nat 45) x) = x).
    cbn [last_segment]. now rewrite Hx.
  - change (last_segment
              (String c (a ++ String (Ascii.ascii_of_nat 45) x)) = x).
    cbn [last_segment]. now rewrite has_dash_app_dash.
Qed.

Lemma pretty_N_char_no_dash (x : N) : is_dash (pretty_N_char x) = false.
Proof.
  unfold pretty_N_char. repeat case_match; reflexivity.
Qed.

Lemma pretty_N_go_no_dash (x : N) (s : string) :
  has_dash s = false -> has_dash (pretty_N_go x s) = false.
Proof.
  revert s. induction (N.lt_wf_0 x) as [x _ IH]; intros s Hs.
  assert (x = 0 \/ 0 < x)%N as [-> | Hpos] by lia.
  - now rewrite pretty_N_go_0.
  - rewrite pretty_N_go_step by done. apply IH.
    + now apply N.div_lt.
    + simpl. now rewrite pretty_N_char_no_dash, Hs.
Qed.

Lemma pretty_nat_no_dash (n : nat) : has_dash (pretty n) = false.
Proof.
  unfold pretty, pretty_nat, pretty, pretty_N.
  case_decide; [reflexivity |].
  now apply pretty_N_go_no_dash.
Qed.

(** The index is what follows the last dash of a key. *)
Lemma key_of_last_segment (block : Blocks.Block) (index : nat) :
  last_segment (Blocks.key_of block index) = pretty index.
Proof.
  unfold Blocks.key_of.
  change (Blocks.__component block ++ "-" ++ pretty (Blocks.id block)
          ++ "-" ++ pretty index)
    with (Blocks.__component block
          ++ (String (Ascii.ascii_of_nat 45) EmptyString
              ++ (pretty (Blocks.id block)
                  ++ String (Ascii.ascii_of_nat 45) (pretty index)))).
  rewrite <- !string_app_assoc.
  apply last_segment_app_dash, pretty_nat_no_dash.
Qed.

Lemma key_of_index_inj (b1 b2 : Blocks.Block) (i j : nat) :
  Blocks.key_of b1 i = Blocks.key_of b2 j -> i = j.
Proof.
  intros H. apply (f_equal last_segment) in H.
  rewrite !key_of_last_segment in H.
  now apply (inj pretty) in H.
Qed.
End Keys.

(** X8.  Every unit the block renderer makes carries a key, and units at
    different positions carry different keys, also when their blocks have
    the same tag and the same identifier. *)
Theorem BlockRenderer_keys_differ_by_position
  (blocks : list Blocks.Block) (i j : nat) (ui uj : Blocks.Element) :
  Blocks.children_of (Blocks.BlockRenderer blocks) !! i = Some ui ->
  Blocks.children_of (Blocks.BlockRenderer blocks) !! j = Some uj ->
  i <> j ->
  is_Some (unit_key ui) /\ is_Some (unit_key uj) /\
  unit_key ui <> unit_key uj.
Proof.
  unfold Blocks.BlockRenderer. simpl Blocks.children_of.
  rewrite !units_lookup.
  destruct (blocks !! i) as [bi |]; [| discriminate].
  destruct (blocks !! j) as [bj |]; [| discriminate].
  simpl. intros [= <-] [= <-] Hij. simpl.
  repeat split; eauto.
  intros [= Hkey]. apply Hij. exact (key_of_index_inj _ _ _ _ Hkey).
Qed.

Lemma BlockRenderer_keys_differ_by_position_witness :
  unit_key (Blocks.View None (Some (Blocks.key_of hero_block 0))
              [Blocks.renderBlock hero_block])
  <> unit_key (Blocks.View None (Some (Blocks.key_of hero_block 1))
                 [Blocks.renderBlock hero_block]).
Proof.
  assert (H : 0 <> 1) by discriminate.
  exact (proj2 (proj2 (BlockRenderer_keys_differ_by_position
                         [hero_block; hero_block] 0 1 _ _
                         eq_refl eq_refl H))).
Defined.

(** ** Card colours *)

(** X9.  For every card index the colour and the fallback icon are
    defined, never [undefined]; both repeat with period six; and two cards
    fewer than six positions apart never get the same colour or the same
    fallback icon. *)
Theorem card_variants_cycle (index : nat) :
  is_Some (CardGrid.getCardVariant index) /\
  is_Some (CardGrid.getFallbackIcon index) /\
  CardGrid.getCardVariant (index + 6) = CardGrid.getCardVariant index /\
  CardGrid.getFallbackIcon (index + 6) = CardGrid.getFallbackIcon index /\
  (forall other : nat,
     index < other < index + 6 ->
     CardGrid.getCardVariant other <> CardGrid.getCardVariant index /\
     CardGrid.getFallbackIcon other <> CardGrid.getFallbackIcon index).
Proof.
  unfold CardGrid.getCardVariant, CardGrid.getFallbackIcon.
  change (length CardGrid.cardVariants) with 6.
  change (length CardGrid.fallbackIcons) with 6.
  assert (Hmod : forall n, n mod 6 < 6) by (intros; apply Nat.mod_upper_bound; lia).
  assert (Hnd1 : NoDup CardGrid.cardVariants).
  { apply (bool_decide_eq_true_1 _). reflexivity. }
  assert (Hnd2 : NoDup CardGrid.fallbackIcons).
  { apply (bool_decide_eq_true_1 _). reflexivity. }
  assert (Hadd : (index + 6) mod 6 = index mod 6).
  { replace (index + 6) with (index + 1 * 6) by lia.
    apply Nat.Div0.mod_add. }
  split; [apply lookup_lt_is_Some; apply Hmod |].
  split; [apply lookup_lt_is_Some; apply Hmod |].
  split; [now rewrite Hadd |].
  split; [now rewrite Hadd |].
  intros other Hrange.
  assert (Hne : other mod 6 <> index mod 6).
  { intros Heq.
    pose proof (Nat.div_mod_eq other 6) as Ho.
    pose proof (Nat.div_mod_eq index 6) as Hi.
    nia. }
  split; intros Heq.
  - destruct (lookup_lt_is_Some_2 CardGrid.cardVariants (index mod 6))
      as [x Hx]; [apply Hmod |].
    rewrite Hx in Heq.
    exact (Hne (NoDup_lookup _ _ _ _ Hnd1 Heq Hx)).
  - destruct (lookup_lt_is_Some_2 CardGrid.fallbackIcons (index mod 6))
      as [x Hx]; [apply Hmod |].
    rewrite Hx in Heq.
    exact (Hne (NoDup_lookup _ _ _ _ Hnd2 Heq Hx)).
Qed.

Lemma card_variants_cycle_witness :
  CardGrid.getCardVariant 8 <> CardGrid.getCardVariant 7.
Proof.
  refine (proj1 (proj2 (proj2 (proj2 (proj2 (card_variants_cycle 7)))) 8 _)).
  lia.
Defined.

(** ** The FAQ accordion *)
Section Accordion.
Import Faqs.

Lemma toggleFAQ_cases (openIndex : option nat) (index : nat) :
  (openIndex = Some index /\ toggleFAQ openIndex index = None) \/
  (openIndex <> Some index /\ toggleFAQ openIndex index = Some index).
Proof.
  unfold toggleFAQ. case_bool_decide; [left | right]; auto.
Qed.

Lemma press_all_snoc (presses : list nat) (index : nat) :
  press_all (presses ++ [index]) = toggleFAQ (press_all presses) index.
Proof. unfold press_all. now rewrite fold_left_app. Qed.

Lemma press_all_last (presses : list nat) (index : nat) :
  press_all presses = Some index -> last presses = Some index.
Proof.
  destruct presses as [| p presses _] using rev_ind; [discriminate |].
  rewrite press_all_snoc, last_snoc.
  destruct (toggleFAQ_cases (press_all presses) p) as [[_ ->] | [_ ->]];
    congruence.
Qed.

Lemma rows_lookup (faq : list IFaqItem) (openIndex : option nat) (i : nat)
  (r : Row) :
  rows faq openIndex !! i = Some r ->
  exists item,
    faq !! i = Some item /\
    question r = heading item /\
    answer r = (if bool_decide (openIndex = Some i)
                then Some (text item) else None).
Proof.
  unfold rows. rewrite list_lookup_imap.
  destruct (faq !! i) as [item |]; [| discriminate].
  intros [= <-]. exists item. auto.
Qed.
End Accordion.

(** X10.  Start with every row closed and press rows in any order.  The
    list always has one row per question.  A row shows its answer exactly
    when it is the open one, so two different rows never show their answers
    together; the open row, if there is one, is the row pressed last; and
    pressing the open row closes every row. *)
Theorem faqs_show_one_answer_at_a_time
  (faq : list Faqs.IFaqItem) (presses : list nat) :
  let openIndex := Faqs.press_all presses in
  length (Faqs.rows faq openIndex) = length faq /\
  (forall i r,
     Faqs.rows faq openIndex !! i = Some r ->
     (is_Some (Faqs.answer r) <-> openIndex = Some i)) /\
  (forall i j ri rj,
     Faqs.rows faq openIndex !! i = Some ri ->
     Faqs.rows faq openIndex !! j = Some rj ->
     is_Some (Faqs.answer ri) -> is_Some (Faqs.answer rj) -> i = j) /\
  (forall i, openIndex = Some i -> last presses = Some i) /\
  (forall i k r,
     openIndex = Some i ->
     Faqs.rows faq (Faqs.press_all (presses ++ [i])) !! k = Some r ->
     Faqs.answer r = None).
Proof.
  intros openIndex.
  assert (Hshown : forall i r,
            Faqs.rows faq openIndex !! i = Some r ->
            (is_Some (Faqs.answer r) <-> openIndex = Some i)).
  { intros i r Hr. destruct (rows_lookup _ _ _ _ Hr) as (item & _ & _ & ->).
    case_bool_decide; split; intros H'; eauto; try congruence.
    destruct H' as [x Hx]. discriminate. }
  split; [unfold Faqs.rows; apply length_imap |].
  split; [exact Hshown |].
  split.
  { intros i j ri rj Hi Hj Hai Haj.
    apply (Hshown _ _ Hi) in Hai. apply (Hshown _ _ Hj) in Haj. congruence. }
  split; [intros i; apply press_all_last |].
  intros i k r Hopen Hr.
  rewrite press_all_snoc in Hr. fold openIndex in Hr. rewrite Hopen in Hr.
  unfold Faqs.toggleFAQ in Hr.
  rewrite bool_decide_eq_true_2 in Hr by reflexivity.
  destruct (rows_lookup _ _ _ _ Hr) as (item & _ & _ & ->).
  now rewrite bool_decide_eq_false_2.
Qed.

Lemma faqs_show_one_answer_at_a_time_witness :
  last [1; 0] = Some 0.
Proof.
  exact (proj1 (proj2 (proj2 (proj2
           (faqs_show_one_answer_at_a_time sample_faq [1; 0])))) 0 eq_refl).
Defined.

(** ** Link buttons *)

(** X11.  A press on the button of the content-with-image block opens at
    most one URL, only for an external link, and never the empty string.
    When the button is shown, the link has a target and a label, and the
    press does what a press on a hero link with the same target does. *)
Theorem link_press_opens_only_external_links
  (link : option Links.TLink) (opened : list string) :
  let opened' := Links.ContentWithImage_handlePress link opened in
  (opened' = opened \/
   exists l, link = Some l /\ Links.isExternal l = true /\
             Links.href l <> "" /\
             opened' = (opened ++ [Links.href l])%list) /\
  (forall l, link = Some l -> Links.isExternal l = false ->
             opened' = opened) /\
  (forall l, link = Some l ->
             is_Some (Links.ContentWithImage_button link) ->
             Links.href l <> "" /\ Links.label l <> "" /\
             opened' = Links.Hero_handlePress (Links.href l)
                         (Links.isExternal l) opened).
Proof.
  intros opened'. subst opened'.
  unfold Links.ContentWithImage_handlePress, Links.ContentWithImage_button,
    Links.Hero_handlePress, Links.openURL.
  destruct link as [l |]; [| repeat split; [now left | discriminate ..]].
  destruct (truthy (Links.href l)) eqn:Hh.
  - apply truthy_nonempty in Hh as Hne.
    destruct (Links.isExternal l) eqn:He.
    + split; [right; exists l; auto |].
      split; [intros l' [= <-]; congruence |].
      intros l' [= <-] Hb. simpl in Hb. rewrite He.
      destruct (truthy (Links.label l)) eqn:Hl.
      * apply truthy_nonempty in Hl. auto.
      * destruct Hb; discriminate.
    + split; [now left |].
      split; [reflexivity |].
      intros l' [= <-] Hb. simpl in Hb. rewrite He.
      destruct (truthy (Links.label l)) eqn:Hl.
      * apply truthy_nonempty in Hl. auto.
      * destruct Hb; discriminate.
  - split; [now left |].
    split; [reflexivity |].
    intros l' [= <-] Hb. simpl in Hb. destruct Hb; discriminate.
Qed.

Lemma link_press_opens_only_external_links_witness :
  Links.ContentWithImage_handlePress (Some external_link) []
    = Links.Hero_handlePress "https://strapi.io" true [].
Proof.
  refine (proj2 (proj2 (proj2 (proj2
            (link_press_opens_only_external_links (Some external_link) []))
            external_link eq_refl _))).
  eexists. reflexivity.
Defined.

(** ** The home screen *)

Lemma getLandingPageData_is_fetchAPI
  (net : nat -> StrapiApi.Request
         -> StrapiApi.FetchOutcome Landing.LandingResponse)
  (w : StrapiApi.World) :
  Landing.getLandingPageData net w
    = StrapiApi.fetchAPI net (StrapiApi.endpoint landing_page_request)
        (StrapiApi.options landing_page_request) w.
Proof. unfold Landing.getLandingPageData. now rewrite bind_ret_r. Qed.

(** X12.  When the backend answers the landing page request with success,
    the home screen shows the block renderer's output for the blocks of the
    response: one unit per block, none when the page or its blocks are
    missing.  One request was sent. *)
Theorem HomeScreen_renders_the_landing_blocks
  (net : nat -> StrapiApi.Request
         -> StrapiApi.FetchOutcome Landing.LandingResponse)
  (w : StrapiApi.World) (r : StrapiApi.Response Landing.LandingResponse)
  (body : Landing.LandingResponse) :
  net (length (StrapiApi.requests w)) landing_page_request
    = StrapiApi.Responded r ->
  StrapiApi.ok r = true ->
  StrapiApi.json r = Some body ->
  let res := ReactQuery.useQuery Layout.queryClient
               (Landing.useLandingPage net) w in
  let blocks := default [] (Landing.data body ≫= Landing.blocks) in
  Landing.HomeScreen false (ReactQuery.data (fst res))
    (ReactQuery.error (fst res))
    = Landing.ContentScreen (Blocks.BlockRenderer blocks) /\
  length (Blocks.children_of (Blocks.BlockRenderer blocks)) = length blocks /\
  StrapiApi.requests (snd res)
    = (StrapiApi.requests w ++ [landing_page_request])%list.
Proof.
  intros Hnet Hok Hjson res blocks. subst res.
  unfold ReactQuery.useQuery, Landing.useLandingPage, Layout.queryClient.
  cbn [ReactQuery.enabled ReactQuery.queryFn ReactQuery.retry].
  rewrite (retryer_fulfilled_first _ 3 w
             (StrapiApi.sent w landing_page_request) body).
  - split; [reflexivity |]. split; [| reflexivity].
    unfold Blocks.BlockRenderer. simpl Blocks.children_of.
    apply units_length.
  - rewrite getLandingPageData_is_fetchAPI.
    exact (fetchAPI_ok net _ w r body Hnet Hok Hjson).
Qed.

Lemma HomeScreen_renders_the_landing_blocks_witness :
  Landing.HomeScreen false
    (ReactQuery.data
       (fst (ReactQuery.useQuery Layout.queryClient
               (Landing.useLandingPage landing_ok) StrapiApi.start)))
    (ReactQuery.error
       (fst (ReactQuery.useQuery Layout.queryClient
               (Landing.useLandingPage landing_ok) StrapiApi.start)))
  = Landing.ContentScreen (Blocks.BlockRenderer [hero_block; unknown_block]).
Proof.
  exact (proj1 (HomeScreen_renders_the_landing_blocks landing_ok
                  StrapiApi.start _ sample_landing_page
                  eq_refl eq_refl eq_refl)).
Defined.

(** X13.  When the backend answers the landing page request and its three
    retries with responses that are not ok, the home screen shows the error
    screen with the message of the wrapper's error for the fourth response,
    status included, and not its fallback text.  Four requests were sent. *)
Theorem HomeScreen_shows_the_http_error
  (net : nat -> StrapiApi.Request
         -> StrapiApi.FetchOutcome Landing.LandingResponse)
  (w : StrapiApi.World) :
  (forall k, k <= 3 ->
     exists r,
       net (length (StrapiApi.requests w) + k) landing_page_request
         = StrapiApi.Responded r /\
       StrapiApi.ok r = false) ->
  let res := ReactQuery.useQuery Layout.queryClient
               (Landing.useLandingPage net) w in
  exists r,
    net (length (StrapiApi.requests w) + 3) landing_page_request
      = StrapiApi.Responded r /\
    Landing.HomeScreen false (ReactQuery.data (fst res))
      (ReactQuery.error (fst res))
      = Landing.ErrorScreen
          ("API error: " ++ pretty (StrapiApi.status r) ++ " "
             ++ StrapiApi.statusText r) /\
    length (StrapiApi.requests (snd res))
      = length (StrapiApi.requests w) + 4.
Proof.
  intros Hall res. subst res.
  destruct (retryer_all_not_ok net landing_page_request 3 w Hall)
    as (r & w' & Hnet & Hok & Hrun & Hlen).
  exists r. split; [exact Hnet |].
  unfold ReactQuery.useQuery, Landing.useLandingPage, Layout.queryClient.
  cbn [ReactQuery.enabled ReactQuery.queryFn ReactQuery.retry].
  rewrite (retryer_ext _ _ 3 w (getLandingPageData_is_fetchAPI net)).
  rewrite Hrun. split; [reflexivity | exact Hlen].
Qed.

Lemma HomeScreen_shows_the_http_error_witness :
  exists r,
    landing_down (length (StrapiApi.requests StrapiApi.start) + 3)
      landing_page_request = StrapiApi.Responded r /\
    Landing.HomeScreen false
      (ReactQuery.data
         (fst (ReactQuery.useQuery Layout.queryClient
                 (Landing.useLandingPage landing_down) StrapiApi.start)))
      (ReactQuery.error
         (fst (ReactQuery.useQuery Layout.queryClient
                 (Landing.useLandingPage landing_down) StrapiApi.start)))
    = Landing.ErrorScreen
        ("API error: " ++ pretty (StrapiApi.status r) ++ " "
           ++ StrapiApi.statusText r) /\
    length (StrapiApi.requests
              (snd (ReactQuery.useQuery Layout.queryClient
                      (Landing.useLandingPage landing_down) StrapiApi.start)))
      = length (StrapiApi.requests StrapiApi.start) + 4.
Proof.
  apply (HomeScreen_shows_the_http_error landing_down StrapiApi.start).
  intros k _. eexists. split; reflexivity.
Defined.

(** ** Retries that succeed *)
Section RecoveredFetch.
Import StrapiApi.
Import ReactQuery.
Context {T : Type}.
Variable net : nat -> Request -> FetchOutcome T.
Variable req : Request.

(** [m] answers that are not ok, then a decodable success: a query with at
    least [m] retries is fulfilled after [m + 1] requests and [m] console
    lines. *)
Lemma retryer_recovers (m retries : nat) (w : World)
  (r : Response T) (body : T) :
  m <= retries ->
  (forall k, k < m ->
     exists r0, net (length (requests w) + k) req = Responded r0 /\
                ok r0 = false) ->
  net (length (requests w) + m) req = Responded r ->
  ok r = true ->
  json r = Some body ->
  exists w',
    retryer retries (fetchAPI net (endpoint req) (options req)) w
      = (Fulfilled body, w') /\
    length (requests w') = length (requests w) + S m /\
    length (console w') = length (console w) + m.
Proof.
  revert retries w. induction m as [| m IH]; intros retries w Hm Hbad Hnet Hok Hjson.
  - rewrite Nat.add_0_r in Hnet. exists (sent w req).
    rewrite (retryer_fulfilled_first _ retries w (sent w req) body
               (fetchAPI_ok net req w r body Hnet Hok Hjson)).
    split; [reflexivity |]. simpl. rewrite length_app. simpl. lia.
  - destruct retries as [| retries]; [lia |].
    destruct (Hbad 0) as (r0 & Hnet0 & Hok0); [lia |].
    rewrite Nat.add_0_r in Hnet0.
    cbn [retryer]. rewrite (fetchAPI_not_ok net req w r0 Hnet0 Hok0).
    set (w1 := logged (sent w req) ["API error response:"; text r0]).
    assert (Hlen : length (requests w1) = S (length (requests w))).
    { subst w1. simpl. rewrite length_app. simpl. lia. }
    assert (Hcon : length (console w1) = S (length (console w))).
    { subst w1. simpl. rewrite length_app. simpl. lia. }
    destruct (IH retries w1) as (w' & Hrun & Hreq & Hc).
    + lia.
    + intros k Hk. rewrite Hlen.
      replace (S (length (requests w)) + k)
        with (length (requests w) + S k) by lia.
      apply Hbad. lia.
    + rewrite Hlen.
      replace (S (length (requests w)) + m)
        with (length (requests w) + S m) by lia.
      exact Hnet.
    + exact Hok.
    + exact Hjson.
    + exists w'. split; [exact Hrun |]. lia.
Qed.
End RecoveredFetch.

(** X14.  For a non-empty slug, when the slug request is answered at most
    three times with a response that is not ok and then with a success, the
    slug query reports the data of that success and no error.  All that is
    left of the failures is one console line each, and one request more
    than there were failures has been sent. *)
Theorem transient_failures_are_retried
  (net : nat -> StrapiApi.Request
         -> StrapiApi.FetchOutcome Loaders.ArticlesResponse)
  (slug : string) (w : StrapiApi.World) (failures : nat)
  (r : StrapiApi.Response Loaders.ArticlesResponse)
  (body : Loaders.ArticlesResponse) :
  truthy slug = true ->
  failures <= 3 ->
  (forall k, k < failures ->
     exists r0,
       net (length (StrapiApi.requests w) + k) (Wire.article_by_slug slug)
         = StrapiApi.Responded r0 /\
       StrapiApi.ok r0 = false) ->
  net (length (StrapiApi.requests w) + failures) (Wire.article_by_slug slug)
    = StrapiApi.Responded r ->
  StrapiApi.ok r = true ->
  StrapiApi.json r = Some body ->
  let res := ReactQuery.useQuery Layout.queryClient
               (Hooks.useArticleBySlug net slug) w in
  fst res = {| ReactQuery.data := Some body; ReactQuery.error := None |} /\
  length (StrapiApi.requests (snd res))
    = length (StrapiApi.requests w) + S failures /\
  length (StrapiApi.console (snd res))
    = length (StrapiApi.console w) + failures.
Proof.
  intros Hslug Hf Hbad Hnet Hok Hjson res. subst res.
  destruct (retryer_recovers net (Wire.article_by_slug slug) failures 3 w
              r body Hf Hbad Hnet Hok Hjson) as (w' & Hrun & Hreq & Hcon).
  unfold ReactQuery.useQuery, Hooks.useArticleBySlug, Layout.queryClient.
  cbn [ReactQuery.enabled ReactQuery.queryFn ReactQuery.retry].
  rewrite Hslug.
  rewrite (retryer_ext _ _ 3 w (getArticleBySlug_is_fetchAPI net slug)).
  rewrite Hrun. auto.
Qed.

Lemma transient_failures_are_retried_witness :
  fst (ReactQuery.useQuery Layout.queryClient
         (Hooks.useArticleBySlug flaky "hello") StrapiApi.start)
  = {| ReactQuery.data :=
         Some {| Types.data := [sample_article; sample_article];
                 Types.meta := {| Types.pagination := None |} |};
       ReactQuery.error := None |}.
Proof.
  refine (proj1 (transient_failures_are_retried flaky "hello"
                   StrapiApi.start 2 found_response _
                   eq_refl _ _ eq_refl eq_refl eq_refl)).
  - lia.
  - intros k Hk. exists server_error_response.
    destruct k as [| [| k]]; [split; reflexivity | split; reflexivity | lia].
Defined.

(** ** The detail screen after the lookup *)

(** X15.  The detail screen looks up [slug || ""].  Without a slug, or with
    the empty one, nothing is sent and, once it is not loading, the screen
    says that the article was not found.  With a non-empty slug and a
    successful first answer that has at least one article, the screen shows
    the first article of the answer, whatever follows it. *)
Theorem ArticleDetailScreen_after_the_lookup
  (net : nat -> StrapiApi.Request
         -> StrapiApi.FetchOutcome Loaders.ArticlesResponse)
  (param : option string) (w : StrapiApi.World) :
  let slug := or_else param "" in
  let res := ReactQuery.useQuery Layout.queryClient
               (Hooks.useArticleBySlug net slug) w in
  let screen := ArticleDetailScreen.ArticleDetailScreen false
                  (ReactQuery.data (fst res)) (ReactQuery.error (fst res)) in
  (truthy_opt param = false ->
   snd res = w /\
   screen = ArticleDetailScreen.ErrorScreen "Article not found") /\
  (forall r body first others,
     truthy_opt param = true ->
     net (length (StrapiApi.requests w)) (Wire.article_by_slug slug)
       = StrapiApi.Responded r ->
     StrapiApi.ok r = true ->
     StrapiApi.json r = Some body ->
     Types.data body = first :: others ->
     param = Some slug /\
     screen = ArticleDetailScreen.ArticleScreen first /\
     StrapiApi.requests (snd res)
       = (StrapiApi.requests w ++ [Wire.article_by_slug slug])%list).
Proof.
  intros slug res screen. subst screen res.
  unfold ReactQuery.useQuery, Hooks.useArticleBySlug, Layout.queryClient.
  cbn [ReactQuery.enabled ReactQuery.queryFn ReactQuery.retry].
  assert (Hslug : truthy slug = truthy_opt param).
  { subst slug. destruct param as [s |]; [| reflexivity].
    simpl. destruct (truthy s) eqn:Hs; [exact Hs | reflexivity]. }
  split.
  - intros Hfalsy. rewrite Hslug, Hfalsy. split; reflexivity.
  - intros r body first others Htruthy Hnet Hok Hjson Hdata.
    rewrite Hslug, Htruthy.
    rewrite (retryer_fulfilled_first _ 3 w
               (StrapiApi.sent w (Wire.article_by_slug slug)) body).
    + split.
      * subst slug. destruct param as [s |]; [| discriminate].
        simpl in *. now rewrite Htruthy.
      * split; [| reflexivity].
        unfold ArticleDetailScreen.ArticleDetailScreen. simpl.
        now rewrite Hdata.
    + rewrite getArticleBySlug_is_fetchAPI.
      exact (fetchAPI_ok net _ w r body Hnet Hok Hjson).
Qed.

Lemma ArticleDetailScreen_after_the_lookup_witness :
  ArticleDetailScreen.ArticleDetailScreen false
    (ReactQuery.data
       (fst (ReactQuery.useQuery Layout.queryClient
               (Hooks.useArticleBySlug finds_nothing (or_else None ""))
               StrapiApi.start)))
    (ReactQuery.error
       (fst (ReactQuery.useQuery Layout.queryClient
               (Hooks.useArticleBySlug finds_nothing (or_else None ""))
               StrapiApi.start)))
  = ArticleDetailScreen.ErrorScreen "Article not found".
Proof.
  exact (proj2 (proj1 (ArticleDetailScreen_after_the_lookup finds_nothing
                         None StrapiApi.start) eq_refl)).
Defined.
